(** * Dashboard widgets: polling and state reconciliation

    A shallow embedding of the script blocks and the status templates of
    the dashboard's Svelte components
    ([src/lib/components/*.svelte] and the two unnamed component files),
    and the properties of their fetch/reconcile/poll logic.

    Conventions of the embedding.
    - A component's [$state] variables are the fields of a record.
    - An [async] update function suspends once, at [await invoke(...)].
      Nothing is assigned before the await, and everything after it runs
      in one go on the single JavaScript thread, so the function is
      modelled by the state transformer that runs when the call settles,
      applied to the call's [Outcome].  [console.error] only logs.
    - A template's [{#if} ... {:else if} ...] chain is a function from the
      state to the branch that is rendered.
    - Error messages are Rocq strings.  [toLowerCase] acts on the letters
      A-Z; every marker the components look for is plain ASCII, and no
      character outside ASCII lower-cases to text that completes the
      marker "loading".
    - JavaScript numbers that are only stored and displayed are rationals;
      millisecond timestamps, counts and handles are integers. *)

From Stdlib Require Import String Ascii List ZArith Bool Arith Lia Permutation.
From Stdlib Require QArith.
Import ListNotations.
Open Scope string_scope.

Definition number : Type := QArith_base.Q.

(** ** JavaScript primitives used by the components *)

Module Js.

(** One UTF-16 unit of [String.prototype.toLowerCase], ASCII range. *)
Definition lowerChar (c : ascii) : ascii :=
  let n := nat_of_ascii c in
  if ((65 <=? n) && (n <=? 90))%nat then ascii_of_nat (n + 32) else c.

Fixpoint toLowerCase (s : string) : string :=
  match s with
  | EmptyString => EmptyString
  | String c t => String (lowerChar c) (toLowerCase t)
  end.

(** [s.includes(needle)]: [needle] occurs in [s] at some position. *)
Fixpoint includes (s needle : string) : bool :=
  String.prefix needle s
  || match s with
     | EmptyString => false
     | String _ t => includes t needle
     end.

(** Truthiness of a [string | null] value: [null] and the empty string
    are falsy, every other string is truthy. *)
Definition truthy (v : option string) : bool :=
  match v with
  | Some (String _ _) => true
  | _ => false
  end.

(** [v?.includes(needle)] used as a condition: [undefined] (falsy) on
    [null]. *)
Definition optIncludes (v : option string) (needle : string) : bool :=
  match v with
  | None => false
  | Some s => includes s needle
  end.

(** The white space and line terminators that [trim] strips, ASCII
    range: tab, line feed, vertical tab, form feed, carriage return and
    space. *)
Definition isWhiteSpace (c : ascii) : bool :=
  let n := nat_of_ascii c in
  (((9 <=? n) && (n <=? 13)) || (n =? 32))%nat.

Fixpoint trimStart (s : string) : string :=
  match s with
  | EmptyString => EmptyString
  | String c t => if isWhiteSpace c then trimStart t else s
  end.

Fixpoint trimEnd (s : string) : string :=
  match s with
  | EmptyString => EmptyString
  | String c t =>
      match trimEnd t with
      | EmptyString => if isWhiteSpace c then EmptyString else String c EmptyString
      | String _ _ as t' => String c t'
      end
  end.

(** [s.trim()] *)
Definition trim (s : string) : string := trimEnd (trimStart s).

(** A string of white space only (the strings that [trim] empties). *)
Fixpoint allWhiteSpace (s : string) : bool :=
  match s with
  | EmptyString => true
  | String c t => isWhiteSpace c && allWhiteSpace t
  end.

(** [s.split(sep)] for a separator of one character: the pieces between
    the separators, in order; one (empty) piece for the empty string. *)
Fixpoint split (sep : ascii) (s : string) : list string :=
  match s with
  | EmptyString => [EmptyString]
  | String c t =>
      if Ascii.eqb c sep then EmptyString :: split sep t
      else match split sep t with
           | p :: ps => String c p :: ps
           | [] => [String c EmptyString]
           end
  end.

(** Text of ASCII characters only.  On such text [toLowerCase], [trim]
    and the white space of this module are those of JavaScript, which on
    other text also lower-cases letters outside ASCII and counts the
    Unicode spaces as white space. *)
Fixpoint isAscii (s : string) : bool :=
  match s with
  | EmptyString => true
  | String c t => (nat_of_ascii c <? 128)%nat && isAscii t
  end.

(** Truthiness of a string: every string but the empty one. *)
Definition nonEmpty (s : string) : bool :=
  match s with
  | EmptyString => false
  | String _ _ => true
  end.

(** [s.replaceAll(needle, "...")] with the empty replacement, for a
    non-empty [needle]: the occurrences found from left to right, without
    overlap, are left out.  [skip] counts the characters still to leave
    out of the occurrence found last. *)
Fixpoint removeAllFrom (needle : string) (skip : nat) (s : string) : string :=
  match s with
  | EmptyString => EmptyString
  | String c t =>
      match skip with
      | S k => removeAllFrom needle k t
      | O =>
          if String.prefix needle s
          then removeAllFrom needle (String.length needle - 1) t
          else String c (removeAllFrom needle 0 t)
      end
  end.

Definition removeAll (needle s : string) : string := removeAllFrom needle 0 s.

(** [s.replace(/\s+/g, " ")]: every maximal run of white space becomes one
    space.  [inRun] tells that the previous character was white space. *)
Fixpoint collapseWhiteSpace (inRun : bool) (s : string) : string :=
  match s with
  | EmptyString => EmptyString
  | String c t =>
      if isWhiteSpace c then
        if inRun then collapseWhiteSpace true t
        else String " " (collapseWhiteSpace true t)
      else String c (collapseWhiteSpace false t)
  end.

End Js.

(** The way a promise returned by [invoke] settles: it resolves with the
    typed record set, or rejects with a value whose [String(err)] is the
    failure message. *)
Inductive Outcome (T : Type) : Type :=
| Resolved (data : T)
| Rejected (errText : string).
Arguments Resolved {T} data.
Arguments Rejected {T} errText.

(** The widget's state after a run of settled calls, oldest first. *)
Definition settleAll {T S : Type} (update : Outcome T -> S -> S)
    (os : list (Outcome T)) (s : S) : S :=
  fold_left (fun s o => update o s) os s.

(** The same for a run of failed calls, given by their messages. *)
Definition failures {T S : Type} (update : Outcome T -> S -> S)
    (msgs : list string) (s : S) : S :=
  settleAll update (map Rejected msgs) s.

(** ** JiraTickets.svelte *)

Module JiraTickets.

Record JiraTicket := {
  key : string;
  summary : string;
  status : string;
  assignee : string;
  url : string
}.

Record State := {
  tickets : list JiraTicket;
  error : option string;
  isLoading : bool
}.

Definition init : State :=
  {| tickets := []; error := None; isLoading := true |}.

Definition updateTickets (o : Outcome (list JiraTicket)) (s : State) : State :=
  let keepLoading := false in
  match o with
  | Resolved data =>
      {| tickets := data; error := None; isLoading := keepLoading |}
  | Rejected errText =>
      if Js.includes (Js.toLowerCase errText) "loading" then
        let keepLoading := true in
        {| tickets := tickets s; error := None; isLoading := keepLoading |}
      else
        {| tickets := []; error := Some errText; isLoading := keepLoading |}
  end.

(** The branches of the status template, named by what they show. *)
Inductive View :=
| ShowLoading               (* "Loading Jira tickets..." *)
| ShowNotConfigured         (* "Jira not configured. Set JIRA_EMAIL and JIRA_API_TOKEN in .env" *)
| ShowAuthFailed            (* "Authentication failed. Check your email and API token in .env" *)
| ShowErrorLoading          (* "Error loading tickets" *)
| ShowNoTickets             (* "No tickets found" *)
| ShowTickets (l : list JiraTicket).

Definition errorText (e : string) : View :=
  if Js.includes e "environment variable" || Js.includes e "JIRA_" then
    ShowNotConfigured
  else if Js.includes e "401" || Js.includes e "403" then
    ShowAuthFailed
  else
    ShowErrorLoading.

(** [{#if isLoading} .. {:else if error} .. {:else if tickets.length === 0}
    .. {:else} ..]; [error] is tested for truthiness. *)
Definition render (s : State) : View :=
  if isLoading s then ShowLoading
  else match error s with
       | Some (String _ _ as e) => errorText e
       | _ =>
           if (length (tickets s) =? 0)%nat then ShowNoTickets
           else ShowTickets (tickets s)
       end.

(** How the widget classifies a failure message: the branch it renders
    once a call has failed with that message. *)
Definition failureView (errText : string) : View :=
  render (updateTickets (Rejected errText) init).

(** [setInterval(updateTickets, 30000)] *)
Definition intervalMs : Z := 30000.

Definition getStatusBadgeColor (status : string) : string :=
  let statusLower := Js.toLowerCase status in
  if Js.includes statusLower "done" || Js.includes statusLower "closed" then
    "bg-green-100 text-green-700"
  else if Js.includes statusLower "progress"
          || Js.includes statusLower "development" then
    "bg-blue-100 text-blue-700"
  else if Js.includes statusLower "review" || Js.includes statusLower "test"
          || Js.includes statusLower "qa" then
    "bg-amber-100 text-amber-700"
  else if Js.includes statusLower "todo" || Js.includes statusLower "backlog"
          || Js.includes statusLower "open"
          || Js.includes statusLower "zu erledigen" then
    "bg-gray-100 text-gray-700"
  else if Js.includes statusLower "blocked" then
    "bg-red-100 text-red-700"
  else
    "bg-primary-100 text-primary-700".

Definition getAssigneeClass (assignee : string) : string :=
  if String.eqb (Js.toLowerCase (Js.trim assignee)) "florian raith" then
    "text-primary-700 font-semibold"
  else
    "text-gray-600".

End JiraTickets.

(** ** SentryIssues.svelte *)

Module SentryIssues.

Record SentryIssue := {
  title : string;
  last_seen : string;
  first_seen : string;
  age : string;
  events : Z;
  users : Z;
  url : string
}.

Record State := {
  issues : list SentryIssue;
  error : option string;
  isLoading : bool
}.

Definition init : State :=
  {| issues := []; error := None; isLoading := true |}.

Definition updateIssues (o : Outcome (list SentryIssue)) (s : State) : State :=
  let keepLoading := false in
  match o with
  | Resolved data =>
      {| issues := data; error := None; isLoading := keepLoading |}
  | Rejected errText =>
      if Js.includes (Js.toLowerCase errText) "loading" then
        let keepLoading := true in
        {| issues := issues s; error := None; isLoading := keepLoading |}
      else
        {| issues := []; error := Some errText; isLoading := keepLoading |}
  end.

Inductive View :=
| ShowLoading               (* "Loading Sentry issues..." *)
| ShowNotConfigured         (* "Sentry not configured. Set SENTRY_AUTH_TOKEN in .env" *)
| ShowErrorLoading          (* "Error loading issues" *)
| ShowNoIssues              (* "No issues found" *)
| ShowIssues (l : list SentryIssue).

Definition errorText (e : string) : View :=
  if Js.includes e "SENTRY_AUTH_TOKEN" then ShowNotConfigured
  else ShowErrorLoading.

Definition render (s : State) : View :=
  if isLoading s then ShowLoading
  else match error s with
       | Some (String _ _ as e) => errorText e
       | _ =>
           if (length (issues s) =? 0)%nat then ShowNoIssues
           else ShowIssues (issues s)
       end.

(** The character classes of the regular expression in
    [formatIssueTitle]: [[A-Za-z_]] and [[A-Za-z0-9_]]. *)
Definition isIdentStart (c : ascii) : bool :=
  let n := nat_of_ascii c in
  (((65 <=? n) && (n <=? 90)) || ((97 <=? n) && (n <=? 122)) || (n =? 95))%nat.

Definition isIdentChar (c : ascii) : bool :=
  let n := nat_of_ascii c in
  (isIdentStart c || ((48 <=? n) && (n <=? 57)))%nat.

(** The second [replace] of [formatIssueTitle], whose regular expression
    is: once or more (a character of [[A-Za-z_]], any number of
    [[A-Za-z0-9_]], a backslash), then (a character of [[A-Za-z_]], any
    number of [[A-Za-z0-9_]]); with flag [g] and replacement "$2";
    as one pass over the text.  A match is a run of one or more segments
    "identifier, backslash" followed by an identifier, found leftmost and
    taken greedily, and it is replaced by that last identifier.  So a
    segment is dropped exactly when an identifier starts right after its
    backslash, and everything else is copied.  The pass is in one of
    three states: outside an identifier; inside the identifier [cur],
    which began at an identifier-start character; or right behind the
    backslash that closed the segment [pend]. *)
Inductive Scan :=
| Outside
| InIdent (cur : string)
| BehindSlash (pend : string).

Fixpoint stripNamespaces (st : Scan) (s : string) : string :=
  match s with
  | EmptyString =>
      match st with
      | Outside => EmptyString
      | InIdent cur => cur
      | BehindSlash pend => pend
      end
  | String c t =>
      match st with
      | Outside =>
          if isIdentStart c then stripNamespaces (InIdent (String c EmptyString)) t
          else String c (stripNamespaces Outside t)
      | InIdent cur =>
          if isIdentChar c then
            stripNamespaces (InIdent (cur ++ String c EmptyString)) t
          else if Ascii.eqb c "\" then
            stripNamespaces (BehindSlash (cur ++ String c EmptyString)) t
          else cur ++ String c (stripNamespaces Outside t)
      | BehindSlash pend =>
          if isIdentStart c then stripNamespaces (InIdent (String c EmptyString)) t
          else pend ++ String c (stripNamespaces Outside t)
      end
  end.

Definition formatIssueTitle (title : string) : string :=
  Js.trim
    (Js.collapseWhiteSpace false
       (stripNamespaces Outside
          (Js.removeAll "/var/www/zewotherm/production" title))).

(** Text whose last character, if any, is not an identifier character. *)
Fixpoint endsOutsideIdentifier (s : string) : bool :=
  match s with
  | EmptyString => true
  | String c EmptyString => negb (isIdentChar c)
  | String _ t => endsOutsideIdentifier t
  end.

(** An identifier in the sense of the regular expression. *)
Definition isIdentifier (s : string) : bool :=
  match s with
  | EmptyString => false
  | String c t => isIdentStart c && forallb isIdentChar (list_ascii_of_string t)
  end.

Definition failureView (errText : string) : View :=
  render (updateIssues (Rejected errText) init).

(** [setInterval(updateIssues, 3000)] *)
Definition intervalMs : Z := 3000.

End SentryIssues.

(** ** HealthUp.svelte *)

Module HealthUp.

Record ServiceHealth := {
  name : string;
  url : string;
  is_up : bool;
  status_code : option Z;
  latency_ms : option Z;
  checked_at_ms : Z;
  error_of : option string      (* the record's own [error] field *)
}.

Record State := {
  services : list ServiceHealth;
  isLoading : bool;
  error : option string
}.

Definition init : State :=
  {| services := []; isLoading := true; error := None |}.

(** What the header shows next to "Last checked:".  The text that
    [toLocaleTimeString] makes of a date depends on the host's locale and
    time zone and is kept symbolic. *)
Inductive Label :=
| NA                        (* "n/a" *)
| TimeOf (checkedAtMs : Z). (* new Date(checkedAtMs).toLocaleTimeString(..) *)

Definition formatCheckedAt (checkedAtMs : Z) : Label :=
  if (checkedAtMs =? 0)%Z then NA else TimeOf checkedAtMs.

(** [Math.max(x, ...rest)] on a non-empty argument list. *)
Definition mathMax (x : Z) (rest : list Z) : Z := fold_left Z.max rest x.

Definition lastCheckedLabel (services : list ServiceHealth) : Label :=
  match map checked_at_ms services with
  | [] => NA                               (* services.length > 0 fails *)
  | x :: rest => formatCheckedAt (mathMax x rest)
  end.

Definition updateHealth (o : Outcome (list ServiceHealth)) (s : State) : State :=
  match o with
  | Resolved data =>
      {| services := data; isLoading := false; error := None |}
  | Rejected errText =>
      {| services := services s; isLoading := false; error := Some errText |}
  end.

Inductive View :=
| ShowLoading               (* "Loading health checks..." *)
| ShowUnableToLoad          (* "Unable to load health checks" *)
| ShowNoServices            (* "No services configured" *)
| ShowServices (l : list ServiceHealth).

Definition render (s : State) : View :=
  if isLoading s then ShowLoading
  else if Js.truthy (error s) then ShowUnableToLoad
  else if (length (services s) =? 0)%nat then ShowNoServices
  else ShowServices (services s).

Definition getLatencyClass (latencyMs : option Z) : string :=
  match latencyMs with
  | None => "text-gray-500"
  | Some ms =>
      if (ms <? 200)%Z then "text-green-600"
      else if (ms <? 500)%Z then "text-amber-600"
      else "text-red-600"
  end.

(** [setInterval(updateHealth, 3000)] *)
Definition intervalMs : Z := 3000.

End HealthUp.

(** ** CpuUsage.svelte *)

Module CpuUsage.

Record CpuCore := { core_id : Z; usage : number }.
Record CpuProcessInfo := { name : string; cpu_usage : number }.
Record CpuInfo := {
  overall_usage : number;
  cores : list CpuCore;
  top_processes : list CpuProcessInfo
}.

Record State := {
  cpuUsage : CpuInfo;
  isLoading : bool;
  loadError : option string
}.

Definition init : State :=
  {| cpuUsage := {| overall_usage := QArith_base.Qmake 0 1;
                    cores := []; top_processes := [] |};
     isLoading := true;
     loadError := None |}.

Definition updateCpuUsage (o : Outcome CpuInfo) (s : State) : State :=
  match o with
  | Resolved data =>
      {| cpuUsage := data; isLoading := false; loadError := None |}
  | Rejected errText =>
      {| cpuUsage := cpuUsage s; isLoading := false; loadError := Some errText |}
  end.

Inductive View :=
| ShowLoading               (* "Loading CPU usage..." *)
| ShowUnableToLoad          (* "Unable to load CPU usage" *)
| ShowUsage (d : CpuInfo).

Definition render (s : State) : View :=
  if isLoading s then ShowLoading
  else if Js.truthy (loadError s) then ShowUnableToLoad
  else ShowUsage (cpuUsage s).

(** [setInterval(updateCpuUsage, 2000)] *)
Definition intervalMs : Z := 2000.

End CpuUsage.

(** ** RamUsage.svelte *)

Module RamUsage.

Record ProcessInfo := { name : string; memory : number; percentage_of : number }.
Record RamInfo := {
  used : number;
  total : number;
  percentage : number;
  top_processes : list ProcessInfo
}.

Record State := {
  ramUsage : RamInfo;
  isLoading : bool;
  loadError : option string
}.

Definition init : State :=
  {| ramUsage := {| used := QArith_base.Qmake 0 1;
                    total := QArith_base.Qmake 0 1;
                    percentage := QArith_base.Qmake 0 1;
                    top_processes := [] |};
     isLoading := true;
     loadError := None |}.

Definition updateRamUsage (o : Outcome RamInfo) (s : State) : State :=
  match o with
  | Resolved data =>
      {| ramUsage := data; isLoading := false; loadError := None |}
  | Rejected errText =>
      {| ramUsage := ramUsage s; isLoading := false; loadError := Some errText |}
  end.

Inductive View :=
| ShowLoading               (* "Loading RAM usage..." *)
| ShowUnableToLoad          (* "Unable to load RAM usage" *)
| ShowUsage (d : RamInfo).

Definition render (s : State) : View :=
  if isLoading s then ShowLoading
  else if Js.truthy (loadError s) then ShowUnableToLoad
  else ShowUsage (ramUsage s).

(** [setInterval(updateRamUsage, 2000)] *)
Definition intervalMs : Z := 2000.

End RamUsage.

(** ** DockerContainers.svelte *)

Module DockerContainers.

Record DockerContainer := {
  id : string;
  name : string;
  image : string;
  status : string;
  ports : string;
  uptime : string
}.

Record State := {
  containers : list DockerContainer;
  error : option string
}.

Definition init : State := {| containers := []; error := None |}.

Definition updateContainers (o : Outcome (list DockerContainer)) (s : State) : State :=
  match o with
  | Resolved data => {| containers := data; error := None |}
  | Rejected errText => {| containers := []; error := Some errText |}
  end.

Inductive View :=
| ShowNotInstalled          (* "Docker not installed or not running" *)
| ShowErrorLoading          (* "Error loading containers" *)
| ShowNoContainers          (* "No running containers" *)
| ShowContainers (l : list DockerContainer).

Definition errorText (e : string) : View :=
  if Js.includes e "command not found" || Js.includes e "Failed to execute"
  then ShowNotInstalled
  else ShowErrorLoading.

Definition render (s : State) : View :=
  match error s with
  | Some (String _ _ as e) => errorText e
  | _ =>
      if (length (containers s) =? 0)%nat then ShowNoContainers
      else ShowContainers (containers s)
  end.

Definition failureView (errText : string) : View :=
  render (updateContainers (Rejected errText) init).

(** [setInterval(updateContainers, 5000)] *)
Definition intervalMs : Z := 5000.

(** The second row of a container card: the port chips.

    [container.ports.split(',').map(p => p.trim()).filter(p => p).slice(0, 3)] *)
Definition shownPorts (ports : string) : list string :=
  firstn 3 (filter Js.nonEmpty (map Js.trim (Js.split "," ports))).

(** [container.ports.split(',').filter(p => p.trim()).length] *)
Definition portCount (ports : string) : nat :=
  length (filter (fun p => Js.nonEmpty (Js.trim p)) (Js.split "," ports)).

Inductive PortsView :=
| ShowNoPorts                                         (* "No ports" *)
| ShowPorts (chips : list string) (more : option nat). (* chips, then "+more" *)

(** [{#if container.ports} .. {#if count > 3} +{count - 3} .. {:else} No ports] *)
Definition portsView (ports : string) : PortsView :=
  if Js.nonEmpty ports then
    ShowPorts (shownPorts ports)
      (if (3 <? portCount ports)%nat then Some (portCount ports - 3)%nat else None)
  else ShowNoPorts.

End DockerContainers.

(** ** The Spotify component (first unnamed component file) *)

Module Spotify.

Record SpotifyTrack := {
  track_name : string;
  artist : string;
  album : string;
  artwork_url : string;
  is_playing : bool
}.

Record State := {
  track : option SpotifyTrack;
  error : option string
}.

Definition init : State := {| track := None; error := None |}.

Definition updateTrack (o : Outcome SpotifyTrack) (s : State) : State :=
  match o with
  | Resolved data => {| track := Some data; error := None |}
  | Rejected errText => {| track := None; error := Some errText |}
  end.

Inductive View :=
| ShowNotRunning            (* "Spotify is not running" *)
| ShowOnlyMacOS             (* "Only supported on macOS" *)
| ShowNoTrack               (* "No track playing" *)
| ShowTrack (t : SpotifyTrack).

Definition fallback (s : State) : View :=
  if Js.optIncludes (error s) "not running" then ShowNotRunning
  else if Js.optIncludes (error s) "only supported" then ShowOnlyMacOS
  else ShowNoTrack.

(** [{#if error || !track} .. {:else} ..] *)
Definition render (s : State) : View :=
  if Js.truthy (error s) then fallback s
  else match track s with
       | None => fallback s
       | Some t => ShowTrack t
       end.

(** [setInterval(updateTrack, 3000)] *)
Definition intervalMs : Z := 3000.

End Spotify.

(** ** The alternate Jira component (second unnamed component file)

    The variant of the Jira widget without a loading flag. *)

Module JiraTicketsAlt.

Record State := {
  tickets : list JiraTickets.JiraTicket;
  error : option string
}.

Definition init : State := {| tickets := []; error := None |}.

Definition updateTickets (o : Outcome (list JiraTickets.JiraTicket)) (s : State) : State :=
  match o with
  | Resolved data => {| tickets := data; error := None |}
  | Rejected errText => {| tickets := []; error := Some errText |}
  end.

Inductive View :=
| ShowNotConfigured
| ShowAuthFailed
| ShowErrorLoading
| ShowNoTickets
| ShowTickets (l : list JiraTickets.JiraTicket).

Definition errorText (e : string) : View :=
  if Js.includes e "environment variable" || Js.includes e "JIRA_" then
    ShowNotConfigured
  else if Js.includes e "401" || Js.includes e "403" then
    ShowAuthFailed
  else
    ShowErrorLoading.

Definition render (s : State) : View :=
  match error s with
  | Some (String _ _ as e) => errorText e
  | _ =>
      if (length (tickets s) =? 0)%nat then ShowNoTickets
      else ShowTickets (tickets s)
  end.

(** [setInterval(updateTickets, 30000)] *)
Definition intervalMs : Z := 30000.

Definition getStatusColor (status : string) : string :=
  let statusLower := Js.toLowerCase status in
  if Js.includes statusLower "done" || Js.includes statusLower "closed" then
    "border-green-500 bg-green-50"
  else if Js.includes statusLower "blocked" then
    "border-red-500 bg-red-50"
  else
    "border-primary-500 bg-primary-50".

Definition getStatusBadgeColor (status : string) : string :=
  let statusLower := Js.toLowerCase status in
  if Js.includes statusLower "done" || Js.includes statusLower "closed" then
    "bg-green-100 text-green-700"
  else if Js.includes statusLower "blocked" then
    "bg-red-100 text-red-700"
  else
    "bg-primary-100 text-primary-700".

End JiraTicketsAlt.

(** ** The shared shape of a component

    Every component has the same script skeleton: state, an async update
    function, [onMount] that calls it once and then registers it with
    [setInterval], and [onDestroy] that clears the interval. *)

Record Widget := {
  St : Type;
  Payload : Type;
  init : St;
  update : Outcome Payload -> St -> St;
  intervalMs : Z
}.

Inductive WidgetId :=
| CpuW | RamW | HealthW | SentryW | DockerW | JiraW | SpotifyW | JiraAltW.

Definition all_widgets : list WidgetId :=
  [CpuW; RamW; HealthW; SentryW; DockerW; JiraW; SpotifyW; JiraAltW].

Definition widgetOf (i : WidgetId) : Widget :=
  match i with
  | CpuW =>
      {| init := CpuUsage.init; update := CpuUsage.updateCpuUsage;
         intervalMs := CpuUsage.intervalMs |}
  | RamW =>
      {| init := RamUsage.init; update := RamUsage.updateRamUsage;
         intervalMs := RamUsage.intervalMs |}
  | HealthW =>
      {| init := HealthUp.init; update := HealthUp.updateHealth;
         intervalMs := HealthUp.intervalMs |}
  | SentryW =>
      {| init := SentryIssues.init; update := SentryIssues.updateIssues;
         intervalMs := SentryIssues.intervalMs |}
  | DockerW =>
      {| init := DockerContainers.init; update := DockerContainers.updateContainers;
         intervalMs := DockerContainers.intervalMs |}
  | JiraW =>
      {| init := JiraTickets.init; update := JiraTickets.updateTickets;
         intervalMs := JiraTickets.intervalMs |}
  | SpotifyW =>
      {| init := Spotify.init; update := Spotify.updateTrack;
         intervalMs := Spotify.intervalMs |}
  | JiraAltW =>
      {| init := JiraTicketsAlt.init; update := JiraTicketsAlt.updateTickets;
         intervalMs := JiraTicketsAlt.intervalMs |}
  end.

(** ** Lifecycle of a mounted component on the host's event loop

    The host (the webview) owns the table of live interval timers and
    delivers three kinds of events to a component: a tick of an interval
    timer, the settling of an outstanding [invoke] promise, and the
    destruction of the component. *)

Section Lifecycle.

Variable w : Widget.

Record Component := {
  widget : St w;              (* the component's [$state] variables *)
  interval : option Z;        (* [let interval: number], undefined until onMount *)
  timers : list (Z * Z);      (* host: live interval timers, (handle, period in ms) *)
  nextHandle : Z;             (* host: the handle the next timer gets *)
  pending : list nat;         (* adapter calls issued and not yet settled *)
  calls : nat                 (* adapter calls issued so far *)
}.

(** A component that has not been mounted yet.  [h0] is the handle the
    host gives to the next timer; [setInterval] returns integers greater
    than zero. *)
Definition created (h0 : Z) : Component :=
  {| widget := init w; interval := None; timers := []; nextHandle := h0;
     pending := []; calls := 0 |}.

(** Calling the update function: it runs up to [await invoke(..)], which
    issues the adapter call, and returns. *)
Definition callUpdate (c : Component) : Component :=
  {| widget := widget c; interval := interval c; timers := timers c;
     nextHandle := nextHandle c;
     pending := pending c ++ [calls c]; calls := S (calls c) |}.

(** The rest of the update function, run when call [k] settles. *)
Definition resume (k : nat) (o : Outcome (Payload w)) (c : Component) : Component :=
  {| widget := update w o (widget c); interval := interval c;
     timers := timers c; nextHandle := nextHandle c;
     pending := filter (fun j => negb (j =? k)%nat) (pending c);
     calls := calls c |}.

(** [interval = setInterval(update, ms)] *)
Definition setInterval (ms : Z) (c : Component) : Component :=
  {| widget := widget c; interval := Some (nextHandle c);
     timers := (nextHandle c, ms) :: timers c;
     nextHandle := (nextHandle c + 1)%Z;
     pending := pending c; calls := calls c |}.

(** [clearInterval(h)]: unknown handles are ignored. *)
Definition clearInterval (h : Z) (c : Component) : Component :=
  {| widget := widget c; interval := interval c;
     timers := filter (fun t => negb (fst t =? h)%Z) (timers c);
     nextHandle := nextHandle c;
     pending := pending c; calls := calls c |}.

Definition onMount (c : Component) : Component :=
  setInterval (intervalMs w) (callUpdate c).

(** [if (interval) { clearInterval(interval); }] *)
Definition onDestroy (c : Component) : Component :=
  match interval c with
  | Some h => if (h =? 0)%Z then c else clearInterval h c
  | None => c
  end.

Inductive Event :=
| Tick (h : Z)                                (* interval timer [h] fires *)
| Settle (k : nat) (o : Outcome (Payload w))  (* adapter call [k] settles *)
| Destroy.                                    (* the component is destroyed *)

Definition live (h : Z) (c : Component) : bool :=
  existsb (fun t => (fst t =? h)%Z) (timers c).

Definition outstanding (k : nat) (c : Component) : bool :=
  existsb (fun j => (j =? k)%nat) (pending c).

Definition step (e : Event) (c : Component) : Component :=
  match e with
  | Tick h => if live h c then callUpdate c else c
  | Settle k o => if outstanding k c then resume k o c else c
  | Destroy => onDestroy c
  end.

Definition run (es : list Event) (c : Component) : Component :=
  fold_left (fun c e => step e c) es c.

Definition mounted (h0 : Z) : Component := onMount (created h0).

(** What holds of a component from its mount on: the variable
    [interval] holds the handle [h0] of its timer, and no other timer is
    live. *)
Definition wellMounted (h0 : Z) (c : Component) : Prop :=
  interval c = Some h0
  /\ (timers c = [(h0, intervalMs w)] \/ timers c = []).

(** What holds once it has been destroyed. *)
Definition stopped (h0 : Z) (c : Component) : Prop :=
  interval c = Some h0 /\ timers c = [].

End Lifecycle.

Arguments widget {w} c.
Arguments interval {w} c.
Arguments timers {w} c.
Arguments nextHandle {w} c.
Arguments pending {w} c.
Arguments calls {w} c.
Arguments Tick {w} h.
Arguments Settle {w} k o.
Arguments Destroy {w}.
Arguments step {w} e c.
Arguments run {w} es c.
Arguments onDestroy {w} c.
Arguments onMount {w} c.
Arguments callUpdate {w} c.
Arguments resume {w} k o c.
Arguments live {w} h c.
Arguments outstanding {w} k c.
Arguments wellMounted {w} h0 c.
Arguments stopped {w} h0 c.

(** * Properties *)

(** ** Strings *)

Module JsFacts.
Import Js.

Lemma prefix_app (n t : string) : String.prefix n (n ++ t) = true.
Proof.
  induction n as [|c n IH]; simpl.
  - destruct t; reflexivity.
  - destruct (ascii_dec c c) as [_|ne]; [exact IH|now destruct ne].
Qed.

Lemma prefix_split (n s : string) :
  String.prefix n s = true -> exists t, s = n ++ t.
Proof.
  revert s. induction n as [|c n IH]; intros s H.
  - exists s. reflexivity.
  - destruct s as [|d s]; simpl in H; [discriminate|].
    destruct (ascii_dec c d) as [<-|_]; [|discriminate].
    destruct (IH s H) as [t ->]. exists t. reflexivity.
Qed.

(** [includes] is the substring test. *)
Lemma includes_spec (s n : string) :
  includes s n = true <-> exists a b, s = a ++ n ++ b.
Proof.
  split.
  - induction s as [|c s IH]; cbn [includes]; intros H.
    + rewrite orb_false_r in H.
      destruct (prefix_split _ _ H) as [t Ht].
      exists EmptyString, t. exact Ht.
    + apply orb_true_iff in H. destruct H as [H|H].
      * destruct (prefix_split _ _ H) as [t Ht].
        exists EmptyString, t. exact Ht.
      * destruct (IH H) as (a & b & ->).
        exists (String c a), b. reflexivity.
  - intros (a & b & ->). induction a as [|c a IH].
    + change (EmptyString ++ n ++ b) with (n ++ b).
      destruct (n ++ b) eqn:E; cbn [includes];
        rewrite <- E, prefix_app; reflexivity.
    + change (String c a ++ n ++ b) with (String c (a ++ n ++ b)).
      cbn [includes]. rewrite IH. apply orb_true_r.
Qed.

Lemma includes_app (a n b : string) : includes (a ++ n ++ b) n = true.
Proof. apply includes_spec. exists a, b. reflexivity. Qed.

Lemma toLowerCase_app (a b : string) :
  toLowerCase (a ++ b) = toLowerCase a ++ toLowerCase b.
Proof. induction a as [|c a IH]; simpl; [|rewrite IH]; reflexivity. Qed.

Lemma includes_empty (n : string) :
  includes EmptyString n = true -> n = EmptyString.
Proof. destruct n; simpl; [reflexivity|discriminate]. Qed.

End JsFacts.

(** ** Runs of settled calls *)

Section Runs.
Context {T S : Type} (update : Outcome T -> S -> S).

Lemma settleAll_app (os os' : list (Outcome T)) (s : S) :
  settleAll update (os ++ os') s = settleAll update os' (settleAll update os s).
Proof. unfold settleAll. apply fold_left_app. Qed.

Lemma settleAll_snoc (os : list (Outcome T)) (o : Outcome T) (s : S) :
  settleAll update (os ++ [o]) s = update o (settleAll update os s).
Proof. rewrite settleAll_app. reflexivity. Qed.

Lemma failures_cons (m : string) (msgs : list string) (s : S) :
  failures update (m :: msgs) s = failures update msgs (update (Rejected m) s).
Proof. reflexivity. Qed.

Lemma failures_snoc (msgs : list string) (m : string) (s : S) :
  failures update (msgs ++ [m]) s = update (Rejected m) (failures update msgs s).
Proof. unfold failures. rewrite map_app. apply settleAll_snoc. Qed.

End Runs.

(** ** What a failure does to the stored payload *)

Lemma cpu_failures_keep (msgs : list string) (s : CpuUsage.State) :
  CpuUsage.cpuUsage (failures CpuUsage.updateCpuUsage msgs s) = CpuUsage.cpuUsage s.
Proof.
  revert s. induction msgs as [|m msgs IH]; intros s; [reflexivity|].
  rewrite failures_cons, IH. reflexivity.
Qed.

Lemma ram_failures_keep (msgs : list string) (s : RamUsage.State) :
  RamUsage.ramUsage (failures RamUsage.updateRamUsage msgs s) = RamUsage.ramUsage s.
Proof.
  revert s. induction msgs as [|m msgs IH]; intros s; [reflexivity|].
  rewrite failures_cons, IH. reflexivity.
Qed.

Lemma health_failures_keep (msgs : list string) (s : HealthUp.State) :
  HealthUp.services (failures HealthUp.updateHealth msgs s) = HealthUp.services s.
Proof.
  revert s. induction msgs as [|m msgs IH]; intros s; [reflexivity|].
  rewrite failures_cons, IH. reflexivity.
Qed.

Lemma docker_failures_clear (m : string) (msgs : list string) (s : DockerContainers.State) :
  DockerContainers.containers
    (failures DockerContainers.updateContainers (m :: msgs) s) = [].
Proof.
  revert m s. induction msgs as [|m' msgs IH]; intros m s; [reflexivity|].
  rewrite failures_cons. apply IH.
Qed.

Lemma spotify_failures_clear (m : string) (msgs : list string) (s : Spotify.State) :
  Spotify.track (failures Spotify.updateTrack (m :: msgs) s) = None.
Proof.
  revert m s. induction msgs as [|m' msgs IH]; intros m s; [reflexivity|].
  rewrite failures_cons. apply IH.
Qed.

Lemma jiraAlt_failures_clear (m : string) (msgs : list string) (s : JiraTicketsAlt.State) :
  JiraTicketsAlt.tickets
    (failures JiraTicketsAlt.updateTickets (m :: msgs) s) = [].
Proof.
  revert m s. induction msgs as [|m' msgs IH]; intros m s; [reflexivity|].
  rewrite failures_cons. apply IH.
Qed.

(** In the Jira and Sentry widgets the payload outlives the failures whose
    message says "loading", and no other. *)
Lemma jira_failures_payload (msgs : list string) (s : JiraTickets.State) :
  JiraTickets.tickets (failures JiraTickets.updateTickets msgs s) =
  if forallb (fun m => Js.includes (Js.toLowerCase m) "loading") msgs
  then JiraTickets.tickets s
  else [].
Proof.
  revert s. induction msgs as [|m msgs IH]; intros s; [reflexivity|].
  rewrite failures_cons, IH. cbn [forallb JiraTickets.updateTickets].
  destruct (Js.includes (Js.toLowerCase m) "loading"); cbn.
  - reflexivity.
  - destruct (forallb _ msgs); reflexivity.
Qed.

Lemma sentry_failures_payload (msgs : list string) (s : SentryIssues.State) :
  SentryIssues.issues (failures SentryIssues.updateIssues msgs s) =
  if forallb (fun m => Js.includes (Js.toLowerCase m) "loading") msgs
  then SentryIssues.issues s
  else [].
Proof.
  revert s. induction msgs as [|m msgs IH]; intros s; [reflexivity|].
  rewrite failures_cons, IH. cbn [forallb SentryIssues.updateIssues].
  destruct (Js.includes (Js.toLowerCase m) "loading"); cbn.
  - reflexivity.
  - destruct (forallb _ msgs); reflexivity.
Qed.

(** C1, as the components implement it.  After a successful fetch of [d]:
    in the CPU, RAM and service-health widgets any run of failed fetches
    leaves [d] stored, with the loading flag off and the last failure's
    message as the error, and the error branch is rendered when that
    message is not empty; in the Docker, Spotify and alternate Jira
    widgets a failed fetch replaces the payload by the empty value; in the
    Jira and Sentry widgets the payload is kept while every failure
    message contains "loading" in some casing and is the empty list
    otherwise. *)
Theorem failures_and_the_last_payload :
  (forall d msgs m s,
      failures CpuUsage.updateCpuUsage (msgs ++ [m])
        (CpuUsage.updateCpuUsage (Resolved d) s)
      = {| CpuUsage.cpuUsage := d; CpuUsage.isLoading := false;
           CpuUsage.loadError := Some m |})
  /\ (forall d msgs m s,
      failures RamUsage.updateRamUsage (msgs ++ [m])
        (RamUsage.updateRamUsage (Resolved d) s)
      = {| RamUsage.ramUsage := d; RamUsage.isLoading := false;
           RamUsage.loadError := Some m |})
  /\ (forall d msgs m s,
      failures HealthUp.updateHealth (msgs ++ [m])
        (HealthUp.updateHealth (Resolved d) s)
      = {| HealthUp.services := d; HealthUp.isLoading := false;
           HealthUp.error := Some m |})
  /\ (forall d msgs c t s,
      CpuUsage.render (failures CpuUsage.updateCpuUsage (msgs ++ [String c t])
        (CpuUsage.updateCpuUsage (Resolved d) s)) = CpuUsage.ShowUnableToLoad)
  /\ (forall d msgs c t s,
      RamUsage.render (failures RamUsage.updateRamUsage (msgs ++ [String c t])
        (RamUsage.updateRamUsage (Resolved d) s)) = RamUsage.ShowUnableToLoad)
  /\ (forall d msgs c t s,
      HealthUp.render (failures HealthUp.updateHealth (msgs ++ [String c t])
        (HealthUp.updateHealth (Resolved d) s)) = HealthUp.ShowUnableToLoad)
  /\ (forall d m msgs s,
      DockerContainers.containers
        (failures DockerContainers.updateContainers (m :: msgs)
           (DockerContainers.updateContainers (Resolved d) s)) = [])
  /\ (forall d m msgs s,
      Spotify.track
        (failures Spotify.updateTrack (m :: msgs)
           (Spotify.updateTrack (Resolved d) s)) = None)
  /\ (forall d m msgs s,
      JiraTicketsAlt.tickets
        (failures JiraTicketsAlt.updateTickets (m :: msgs)
           (JiraTicketsAlt.updateTickets (Resolved d) s)) = [])
  /\ (forall d msgs s,
      JiraTickets.tickets
        (failures JiraTickets.updateTickets msgs
           (JiraTickets.updateTickets (Resolved d) s))
      = if forallb (fun m => Js.includes (Js.toLowerCase m) "loading") msgs
        then d else [])
  /\ (forall d msgs s,
      SentryIssues.issues
        (failures SentryIssues.updateIssues msgs
           (SentryIssues.updateIssues (Resolved d) s))
      = if forallb (fun m => Js.includes (Js.toLowerCase m) "loading") msgs
        then d else []).
Proof.
  assert (Hc : forall d msgs m s,
      failures CpuUsage.updateCpuUsage (msgs ++ [m])
        (CpuUsage.updateCpuUsage (Resolved d) s)
      = {| CpuUsage.cpuUsage := d; CpuUsage.isLoading := false;
           CpuUsage.loadError := Some m |}).
  { intros. rewrite failures_snoc. cbn [CpuUsage.updateCpuUsage].
    rewrite cpu_failures_keep. reflexivity. }
  assert (Hr : forall d msgs m s,
      failures RamUsage.updateRamUsage (msgs ++ [m])
        (RamUsage.updateRamUsage (Resolved d) s)
      = {| RamUsage.ramUsage := d; RamUsage.isLoading := false;
           RamUsage.loadError := Some m |}).
  { intros. rewrite failures_snoc. cbn [RamUsage.updateRamUsage].
    rewrite ram_failures_keep. reflexivity. }
  assert (Hh : forall d msgs m s,
      failures HealthUp.updateHealth (msgs ++ [m])
        (HealthUp.updateHealth (Resolved d) s)
      = {| HealthUp.services := d; HealthUp.isLoading := false;
           HealthUp.error := Some m |}).
  { intros. rewrite failures_snoc. cbn [HealthUp.updateHealth].
    rewrite health_failures_keep. reflexivity. }
  repeat split; intros.
  - apply Hc.
  - apply Hr.
  - apply Hh.
  - rewrite Hc. reflexivity.
  - rewrite Hr. reflexivity.
  - rewrite Hh. reflexivity.
  - apply docker_failures_clear.
  - apply spotify_failures_clear.
  - apply jiraAlt_failures_clear.
  - apply jira_failures_payload.
  - apply sentry_failures_payload.
Qed.

(** C1 as stated fails: in the Docker widget one failed fetch after a
    successful one leaves no container stored. *)
Lemma docker_failure_discards_payload :
  let c0 := {| DockerContainers.id := "4f2a"; DockerContainers.name := "db";
               DockerContainers.image := "postgres:16";
               DockerContainers.status := "running";
               DockerContainers.ports := "5432/tcp";
               DockerContainers.uptime := "Up 2 hours" |} in
  DockerContainers.containers
    (failures DockerContainers.updateContainers ["connection refused"]
       (DockerContainers.updateContainers (Resolved [c0]) DockerContainers.init))
  <> [c0].
Proof. cbn. discriminate. Qed.

(** ** The loading flag after a completed fetch *)

(** C2, as the components implement it.  In the CPU, RAM and
    service-health widgets the loading flag is off after every completed
    fetch, so the loading branch is never rendered again.  In the Jira and
    Sentry widgets the flag after a fetch is on exactly when that fetch
    failed with a message that contains "loading" in some casing, whatever
    was fetched before, and the loading branch is then rendered. *)
Theorem loading_after_a_completed_fetch :
  (forall os o s,
      let s' := settleAll CpuUsage.updateCpuUsage (os ++ [o]) s in
      CpuUsage.isLoading s' = false /\ CpuUsage.render s' <> CpuUsage.ShowLoading)
  /\ (forall os o s,
      let s' := settleAll RamUsage.updateRamUsage (os ++ [o]) s in
      RamUsage.isLoading s' = false /\ RamUsage.render s' <> RamUsage.ShowLoading)
  /\ (forall os o s,
      let s' := settleAll HealthUp.updateHealth (os ++ [o]) s in
      HealthUp.isLoading s' = false /\ HealthUp.render s' <> HealthUp.ShowLoading)
  /\ (forall os o s,
      JiraTickets.isLoading (settleAll JiraTickets.updateTickets (os ++ [o]) s)
      = match o with
        | Resolved _ => false
        | Rejected m => Js.includes (Js.toLowerCase m) "loading"
        end)
  /\ (forall os o s,
      SentryIssues.isLoading (settleAll SentryIssues.updateIssues (os ++ [o]) s)
      = match o with
        | Resolved _ => false
        | Rejected m => Js.includes (Js.toLowerCase m) "loading"
        end)
  /\ (forall os m s,
      Js.includes (Js.toLowerCase m) "loading" = true ->
      JiraTickets.render
        (settleAll JiraTickets.updateTickets (os ++ [Rejected m]) s)
      = JiraTickets.ShowLoading)
  /\ (forall os m s,
      Js.includes (Js.toLowerCase m) "loading" = true ->
      SentryIssues.render
        (settleAll SentryIssues.updateIssues (os ++ [Rejected m]) s)
      = SentryIssues.ShowLoading).
Proof.
  repeat apply conj; intros os o s; try (intros s'; subst s');
    rewrite ?settleAll_snoc.
  - destruct o; cbn; [split; [reflexivity|]|split; [reflexivity|]].
    + discriminate.
    + destruct errText; discriminate.
  - destruct o; cbn; [split; [reflexivity|]|split; [reflexivity|]].
    + discriminate.
    + destruct errText; discriminate.
  - destruct o; cbn -[Nat.eqb]; [split; [reflexivity|]|split; [reflexivity|]].
    + destruct (length data =? 0)%nat; discriminate.
    + destruct errText; [|discriminate].
      destruct (length _ =? 0)%nat; discriminate.
  - destruct o as [d|m]; cbn [JiraTickets.updateTickets]; [reflexivity|].
    destruct (Js.includes (Js.toLowerCase m) "loading"); reflexivity.
  - destruct o as [d|m]; cbn [SentryIssues.updateIssues]; [reflexivity|].
    destruct (Js.includes (Js.toLowerCase m) "loading"); reflexivity.
  - intros H. cbn [JiraTickets.updateTickets]. rewrite H. reflexivity.
  - intros H. cbn [SentryIssues.updateIssues]. rewrite H. reflexivity.
Qed.

Lemma loading_after_a_completed_fetch_witness :
  Js.includes (Js.toLowerCase "Still LOADING config") "loading" = true
  /\ JiraTickets.render
       (settleAll JiraTickets.updateTickets
          ([Resolved []] ++ [Rejected "Still LOADING config"]) JiraTickets.init)
     = JiraTickets.ShowLoading
  /\ SentryIssues.render
       (settleAll SentryIssues.updateIssues
          ([Resolved []] ++ [Rejected "Still LOADING config"]) SentryIssues.init)
     = SentryIssues.ShowLoading.
Proof.
  destruct loading_after_a_completed_fetch as (_ & _ & _ & _ & _ & Hj & Hs).
  split; [reflexivity|]. split; [apply Hj|apply Hs]; reflexivity.
Defined.

(** C2 as stated fails: the Jira widget, having fetched a ticket, renders
    its loading branch again when the next fetch fails with a message that
    says "loading". *)
Lemma jira_returns_to_loading :
  let t0 := {| JiraTickets.key := "OPS-7"; JiraTickets.summary := "Rotate keys";
               JiraTickets.status := "Open"; JiraTickets.assignee := "nobody";
               JiraTickets.url := "https://jira.example/browse/OPS-7" |} in
  JiraTickets.render
    (settleAll JiraTickets.updateTickets
       [Resolved [t0]; Rejected "Still loading tickets"] JiraTickets.init)
  = JiraTickets.ShowLoading
  /\ JiraTickets.render
    (settleAll JiraTickets.updateTickets [Resolved [t0]] JiraTickets.init)
  = JiraTickets.ShowTickets [t0].
Proof. cbn. split; reflexivity. Qed.

(** ** Classification of failure messages *)

(** What the Jira widget renders after a failed call depends on the
    message alone. *)
Lemma jira_failure_view (m : string) (s : JiraTickets.State) :
  JiraTickets.render (JiraTickets.updateTickets (Rejected m) s) =
  if Js.includes (Js.toLowerCase m) "loading" then JiraTickets.ShowLoading
  else match m with
       | EmptyString => JiraTickets.ShowNoTickets
       | String _ _ => JiraTickets.errorText m
       end.
Proof.
  unfold JiraTickets.render, JiraTickets.updateTickets.
  destruct (Js.includes (Js.toLowerCase m) "loading"); [reflexivity|].
  destruct m; reflexivity.
Qed.

Lemma sentry_failure_view (m : string) (s : SentryIssues.State) :
  SentryIssues.render (SentryIssues.updateIssues (Rejected m) s) =
  if Js.includes (Js.toLowerCase m) "loading" then SentryIssues.ShowLoading
  else match m with
       | EmptyString => SentryIssues.ShowNoIssues
       | String _ _ => SentryIssues.errorText m
       end.
Proof.
  unfold SentryIssues.render, SentryIssues.updateIssues.
  destruct (Js.includes (Js.toLowerCase m) "loading"); [reflexivity|].
  destruct m; reflexivity.
Qed.

Lemma docker_failure_view (m : string) (s : DockerContainers.State) :
  DockerContainers.render (DockerContainers.updateContainers (Rejected m) s) =
  match m with
  | EmptyString => DockerContainers.ShowNoContainers
  | String _ _ => DockerContainers.errorText m
  end.
Proof. destruct m; reflexivity. Qed.

(** A marker cannot occur in the empty message. *)
Lemma marker_in_message (m marker : string) :
  marker <> EmptyString -> Js.includes m marker = true ->
  exists c t, m = String c t.
Proof.
  intros Hne H. destruct m as [|c t]; [|eauto].
  apply JsFacts.includes_empty in H. contradiction.
Qed.

(** C3, as the Jira and Sentry widgets implement it.  The order of the
    rules in the Jira widget is StillLoading, NotConfigured, AuthFailure,
    Unknown: a message whose lower-casing contains "loading" selects the
    loading branch whatever else it contains; otherwise a message with
    "environment variable" or "JIRA_" selects the not-configured branch,
    also when it contains "401" or "403"; otherwise a message with "401"
    or "403" selects the auth branch, whatever else (network text or
    other) it contains; a non-empty message with none of these selects
    the generic error.  In the Sentry widget the order is StillLoading,
    NotConfigured ("SENTRY_AUTH_TOKEN"), Unknown: a non-empty message
    with neither "loading" nor "SENTRY_AUTH_TOKEN" selects the generic
    error.  The branch does not depend on the state the widget was in. *)
Theorem classification_precedence :
  (forall m s,
      JiraTickets.render (JiraTickets.updateTickets (Rejected m) s)
      = JiraTickets.failureView m)
  /\ (forall m,
      Js.includes (Js.toLowerCase m) "loading" = true ->
      JiraTickets.failureView m = JiraTickets.ShowLoading)
  /\ (forall m,
      Js.includes (Js.toLowerCase m) "loading" = false ->
      Js.includes m "environment variable" = true \/ Js.includes m "JIRA_" = true ->
      JiraTickets.failureView m = JiraTickets.ShowNotConfigured)
  /\ (forall m,
      Js.includes (Js.toLowerCase m) "loading" = false ->
      Js.includes m "environment variable" = false ->
      Js.includes m "JIRA_" = false ->
      Js.includes m "401" = true \/ Js.includes m "403" = true ->
      JiraTickets.failureView m = JiraTickets.ShowAuthFailed)
  /\ (forall c t,
      Js.includes (Js.toLowerCase (String c t)) "loading" = false ->
      Js.includes (String c t) "environment variable" = false ->
      Js.includes (String c t) "JIRA_" = false ->
      Js.includes (String c t) "401" = false ->
      Js.includes (String c t) "403" = false ->
      JiraTickets.failureView (String c t) = JiraTickets.ShowErrorLoading)
  /\ (forall m s,
      SentryIssues.render (SentryIssues.updateIssues (Rejected m) s)
      = SentryIssues.failureView m)
  /\ (forall m,
      Js.includes (Js.toLowerCase m) "loading" = true ->
      SentryIssues.failureView m = SentryIssues.ShowLoading)
  /\ (forall m,
      Js.includes (Js.toLowerCase m) "loading" = false ->
      Js.includes m "SENTRY_AUTH_TOKEN" = true ->
      SentryIssues.failureView m = SentryIssues.ShowNotConfigured)
  /\ (forall c t,
      Js.includes (Js.toLowerCase (String c t)) "loading" = false ->
      Js.includes (String c t) "SENTRY_AUTH_TOKEN" = false ->
      SentryIssues.failureView (String c t) = SentryIssues.ShowErrorLoading).
Proof.
  repeat apply conj.
  - intros m s. unfold JiraTickets.failureView. rewrite !jira_failure_view.
    reflexivity.
  - intros m H. unfold JiraTickets.failureView. rewrite jira_failure_view, H.
    reflexivity.
  - intros m H Hm. unfold JiraTickets.failureView. rewrite jira_failure_view, H.
    assert (exists c t, m = String c t) as (c & t & E).
    { destruct Hm as [Hm|Hm]; apply marker_in_message in Hm; auto; discriminate. }
    rewrite E in *. unfold JiraTickets.errorText.
    destruct Hm as [-> | ->]; rewrite ?orb_true_r; reflexivity.
  - intros m H He Hj Hm. unfold JiraTickets.failureView.
    rewrite jira_failure_view, H.
    assert (exists c t, m = String c t) as (c & t & E).
    { destruct Hm as [Hm|Hm]; apply marker_in_message in Hm; auto; discriminate. }
    rewrite E in *. unfold JiraTickets.errorText. rewrite He, Hj.
    destruct Hm as [-> | ->]; rewrite ?orb_true_r; reflexivity.
  - intros c t H He Hj H1 H3. unfold JiraTickets.failureView.
    rewrite jira_failure_view, H. unfold JiraTickets.errorText.
    rewrite He, Hj, H1, H3. reflexivity.
  - intros m s. unfold SentryIssues.failureView. rewrite !sentry_failure_view.
    reflexivity.
  - intros m H. unfold SentryIssues.failureView. rewrite sentry_failure_view, H.
    reflexivity.
  - intros m H Hm. unfold SentryIssues.failureView.
    rewrite sentry_failure_view, H.
    assert (exists c t, m = String c t) as (c & t & E).
    { apply marker_in_message in Hm; auto; discriminate. }
    rewrite E in *. unfold SentryIssues.errorText. rewrite Hm. reflexivity.
  - intros c t H Ht. unfold SentryIssues.failureView.
    rewrite sentry_failure_view, H. unfold SentryIssues.errorText.
    rewrite Ht. reflexivity.
Qed.

Lemma classification_precedence_witness :
  JiraTickets.failureView "HTTP 401 while loading" = JiraTickets.ShowLoading
  /\ JiraTickets.failureView "403: JIRA_API_TOKEN environment variable not set"
     = JiraTickets.ShowNotConfigured
  /\ JiraTickets.failureView "HTTP 403 Forbidden: connection reset by peer"
     = JiraTickets.ShowAuthFailed
  /\ JiraTickets.failureView "connection refused" = JiraTickets.ShowErrorLoading
  /\ SentryIssues.failureView "SENTRY_AUTH_TOKEN is still loading"
     = SentryIssues.ShowLoading
  /\ SentryIssues.failureView "SENTRY_AUTH_TOKEN not set (HTTP 401)"
     = SentryIssues.ShowNotConfigured
  /\ SentryIssues.failureView "connection refused"
     = SentryIssues.ShowErrorLoading.
Proof.
  destruct classification_precedence
    as (_ & Hl & Hn & Ha & Hu & _ & Hsl & Hsn & Hsu).
  split; [apply Hl; reflexivity|].
  split; [apply Hn; [reflexivity|left; reflexivity]|].
  split; [apply Ha; [reflexivity|reflexivity|reflexivity|right; reflexivity]|].
  split; [apply Hu; reflexivity|].
  split; [apply Hsl; reflexivity|].
  split; [apply Hsn; reflexivity|apply Hsu; reflexivity].
Defined.

(** C3 as stated fails: with "loading" in the message the Jira widget
    stays in its loading branch although a NotConfigured marker, or an
    auth marker, is present. *)
Lemma jira_loading_outranks_markers :
  (Js.includes "Error loading config: JIRA_API_TOKEN environment variable not set"
     "JIRA_" = true
   /\ JiraTickets.failureView
        "Error loading config: JIRA_API_TOKEN environment variable not set"
      <> JiraTickets.ShowNotConfigured)
  /\ (Js.includes "Error loading tickets: 401 Unauthorized" "401" = true
      /\ JiraTickets.failureView "Error loading tickets: 401 Unauthorized"
         <> JiraTickets.ShowAuthFailed).
Proof. repeat split; discriminate. Qed.

(** A failure message that is not empty and matches no marker gets the
    generic text in the Docker widget. *)
Lemma docker_unmatched_message (c : ascii) (t : string) (s : DockerContainers.State) :
  Js.includes (String c t) "command not found" = false ->
  Js.includes (String c t) "Failed to execute" = false ->
  DockerContainers.render
    (DockerContainers.updateContainers (Rejected (String c t)) s)
  = DockerContainers.ShowErrorLoading.
Proof.
  intros Hc Hf. rewrite docker_failure_view.
  unfold DockerContainers.errorText. rewrite Hc, Hf. reflexivity.
Qed.

(** C4 at the empty failure message.  The templates test [error] for
    truthiness, and the empty string is falsy: after a call that failed
    with the empty message, which matches no marker, the Jira widget
    renders "No tickets found" and the Docker widget "No running
    containers", not the generic error text that their marker rules give
    to a message without markers. *)
Theorem empty_failure_message_shows_no_error :
  (forall s,
      JiraTickets.render (JiraTickets.updateTickets (Rejected EmptyString) s)
      = JiraTickets.ShowNoTickets)
  /\ JiraTickets.failureView EmptyString <> JiraTickets.ShowErrorLoading
  /\ (forall s,
      DockerContainers.render
        (DockerContainers.updateContainers (Rejected EmptyString) s)
      = DockerContainers.ShowNoContainers)
  /\ DockerContainers.failureView EmptyString <> DockerContainers.ShowErrorLoading
  /\ Js.includes (Js.toLowerCase EmptyString) "loading" = false
  /\ JiraTickets.errorText EmptyString = JiraTickets.ShowErrorLoading
  /\ DockerContainers.errorText EmptyString = DockerContainers.ShowErrorLoading.
Proof. repeat split; discriminate. Qed.

(** ** Case of the markers *)

(** C10.  In the Jira and Sentry widgets the loading flag after a failed
    call is the test for "loading" in the lower-cased message, so the
    marker matches in any casing and anywhere in the message; the other
    markers are looked for in the message as it came, so that, while
    "loading" is absent, the not-configured branch is rendered exactly for
    the messages that contain "environment variable" or "JIRA_" (Jira) or
    "SENTRY_AUTH_TOKEN" (Sentry) in that very casing, and the auth branch
    exactly for the remaining messages that contain "401" or "403". *)
Theorem marker_case_sensitivity :
  (forall m s,
      JiraTickets.isLoading (JiraTickets.updateTickets (Rejected m) s)
      = Js.includes (Js.toLowerCase m) "loading")
  /\ (forall m s,
      SentryIssues.isLoading (SentryIssues.updateIssues (Rejected m) s)
      = Js.includes (Js.toLowerCase m) "loading")
  /\ (forall pre x post s s',
      Js.toLowerCase x = "loading" ->
      JiraTickets.render
        (JiraTickets.updateTickets (Rejected (pre ++ x ++ post)) s)
      = JiraTickets.ShowLoading
      /\ SentryIssues.render
        (SentryIssues.updateIssues (Rejected (pre ++ x ++ post)) s')
      = SentryIssues.ShowLoading)
  /\ (forall m s,
      Js.includes (Js.toLowerCase m) "loading" = false ->
      (JiraTickets.render (JiraTickets.updateTickets (Rejected m) s)
       = JiraTickets.ShowNotConfigured
       <-> Js.includes m "environment variable" = true
           \/ Js.includes m "JIRA_" = true)
      /\ (JiraTickets.render (JiraTickets.updateTickets (Rejected m) s)
          = JiraTickets.ShowAuthFailed
          <-> Js.includes m "environment variable" = false
              /\ Js.includes m "JIRA_" = false
              /\ (Js.includes m "401" = true \/ Js.includes m "403" = true)))
  /\ (forall m s,
      Js.includes (Js.toLowerCase m) "loading" = false ->
      (SentryIssues.render (SentryIssues.updateIssues (Rejected m) s)
       = SentryIssues.ShowNotConfigured
       <-> Js.includes m "SENTRY_AUTH_TOKEN" = true))
  /\ (forall s,
      JiraTickets.render (JiraTickets.updateTickets (Rejected "LOADING") s)
      = JiraTickets.ShowLoading)
  /\ (forall s,
      JiraTickets.render
        (JiraTickets.updateTickets (Rejected "jira_api_token missing") s)
      = JiraTickets.ShowErrorLoading)
  /\ (forall s,
      SentryIssues.render
        (SentryIssues.updateIssues (Rejected "sentry_auth_token missing") s)
      = SentryIssues.ShowErrorLoading).
Proof.
  repeat apply conj.
  - intros m s. cbn [JiraTickets.updateTickets].
    destruct (Js.includes (Js.toLowerCase m) "loading"); reflexivity.
  - intros m s. cbn [SentryIssues.updateIssues].
    destruct (Js.includes (Js.toLowerCase m) "loading"); reflexivity.
  - intros pre x post s s' Hx.
    assert (H : Js.includes (Js.toLowerCase (pre ++ x ++ post)) "loading" = true).
    { rewrite !JsFacts.toLowerCase_app, Hx. apply JsFacts.includes_app. }
    rewrite jira_failure_view, sentry_failure_view, H. split; reflexivity.
  - intros m s Hl. rewrite jira_failure_view, Hl.
    destruct m as [|c t]; [repeat split; intros; intuition discriminate|].
    unfold JiraTickets.errorText.
    destruct (Js.includes (String c t) "environment variable"),
             (Js.includes (String c t) "JIRA_"),
             (Js.includes (String c t) "401"),
             (Js.includes (String c t) "403");
      cbn; repeat split; intros; intuition discriminate.
  - intros m s Hl. rewrite sentry_failure_view, Hl.
    destruct m as [|c t]; [split; intros; discriminate|].
    unfold SentryIssues.errorText.
    destruct (Js.includes (String c t) "SENTRY_AUTH_TOKEN");
      split; intros; (reflexivity || discriminate).
  - intros s. rewrite jira_failure_view. reflexivity.
  - intros s. rewrite jira_failure_view. reflexivity.
  - intros s. rewrite sentry_failure_view. reflexivity.
Qed.

Lemma marker_case_sensitivity_witness :
  Js.toLowerCase "LoAdInG" = "loading"
  /\ JiraTickets.render
       (JiraTickets.updateTickets
          (Rejected ("Jira is " ++ "LoAdInG" ++ " its configuration"))
          JiraTickets.init)
     = JiraTickets.ShowLoading
  /\ Js.includes (Js.toLowerCase "JIRA_EMAIL is not set") "loading" = false
  /\ JiraTickets.render
       (JiraTickets.updateTickets (Rejected "JIRA_EMAIL is not set")
          JiraTickets.init)
     = JiraTickets.ShowNotConfigured
  /\ SentryIssues.render
       (SentryIssues.updateIssues (Rejected "SENTRY_AUTH_TOKEN is not set")
          SentryIssues.init)
     = SentryIssues.ShowNotConfigured.
Proof.
  destruct marker_case_sensitivity as (_ & _ & Hx & Hj & Hs & _).
  split; [reflexivity|].
  split; [apply (Hx "Jira is " "LoAdInG" " its configuration"
                     JiraTickets.init SentryIssues.init); reflexivity|].
  split; [reflexivity|].
  split.
  - apply (Hj "JIRA_EMAIL is not set"); [reflexivity|right; reflexivity].
  - apply (Hs "SENTRY_AUTH_TOKEN is not set"); reflexivity.
Defined.

(** ** The latest check time of the service-health widget *)

Lemma mathMax_bounds (rest : list Z) (x : Z) :
  (x <= HealthUp.mathMax x rest)%Z
  /\ Forall (fun y => (y <= HealthUp.mathMax x rest)%Z) rest.
Proof.
  unfold HealthUp.mathMax. revert x.
  induction rest as [|y rest IH]; intros x; cbn [fold_left].
  - split; [lia|constructor].
  - destruct (IH (Z.max x y)) as [H1 H2].
    split; [lia|]. constructor; [lia|exact H2].
Qed.

Lemma mathMax_in (rest : list Z) (x : Z) :
  In (HealthUp.mathMax x rest) (x :: rest).
Proof.
  unfold HealthUp.mathMax. revert x.
  induction rest as [|y rest IH]; intros x; cbn [fold_left].
  - left. reflexivity.
  - destruct (IH (Z.max x y)) as [H|H].
    + destruct (Z.max_spec x y) as [[_ E]|[_ E]]; rewrite E in *.
      * right. left. exact H.
      * left. exact H.
    + right. right. exact H.
Qed.

(** C5.  The label is "n/a" for the empty service list (the list the
    widget starts with, before any fetch has completed) and for a list
    whose timestamps are all 0; it is never the time of timestamp 0; and
    when some service has a positive timestamp it is the time of the
    largest timestamp in the list. *)
Theorem lastCheckedLabel_latest :
  HealthUp.lastCheckedLabel [] = HealthUp.NA
  /\ HealthUp.lastCheckedLabel (HealthUp.services HealthUp.init) = HealthUp.NA
  /\ (forall services,
      Forall (fun s => HealthUp.checked_at_ms s = 0%Z) services ->
      HealthUp.lastCheckedLabel services = HealthUp.NA)
  /\ (forall services,
      HealthUp.lastCheckedLabel services <> HealthUp.TimeOf 0)
  /\ (forall services s,
      In s services -> (0 < HealthUp.checked_at_ms s)%Z ->
      exists m,
        HealthUp.lastCheckedLabel services = HealthUp.TimeOf m
        /\ In m (map HealthUp.checked_at_ms services)
        /\ Forall (fun x => (HealthUp.checked_at_ms x <= m)%Z) services).
Proof.
  repeat apply conj; try reflexivity.
  - intros services H. unfold HealthUp.lastCheckedLabel.
    destruct services as [|x rest]; [reflexivity|]. cbn [map].
    assert (E : HealthUp.mathMax (HealthUp.checked_at_ms x)
                  (map HealthUp.checked_at_ms rest) = 0%Z).
    { destruct (mathMax_in (map HealthUp.checked_at_ms rest)
                  (HealthUp.checked_at_ms x)) as [E|E].
      - rewrite <- E. inversion H; assumption.
      - apply in_map_iff in E. destruct E as (y & Ey & Hy).
        rewrite <- Ey. inversion H as [|? ? _ Hr]; subst.
        rewrite Forall_forall in Hr. apply Hr. exact Hy. }
    rewrite E. reflexivity.
  - intros services. unfold HealthUp.lastCheckedLabel, HealthUp.formatCheckedAt.
    destruct (map HealthUp.checked_at_ms services) as [|x rest]; [discriminate|].
    destruct (Z.eqb_spec (HealthUp.mathMax x rest) 0) as [E|E]; [discriminate|].
    intros H. injection H as H. contradiction.
  - intros services s Hin Hpos.
    unfold HealthUp.lastCheckedLabel, HealthUp.formatCheckedAt.
    destruct services as [|x rest]; [destruct Hin|]. cbn [map].
    set (m := HealthUp.mathMax (HealthUp.checked_at_ms x)
                (map HealthUp.checked_at_ms rest)).
    destruct (mathMax_bounds (map HealthUp.checked_at_ms rest)
                (HealthUp.checked_at_ms x)) as [Hx Hrest]. fold m in Hx, Hrest.
    assert (Hall : Forall (fun y => (HealthUp.checked_at_ms y <= m)%Z) (x :: rest)).
    { constructor; [exact Hx|]. rewrite Forall_map in Hrest. exact Hrest. }
    assert (Hm : (0 < m)%Z).
    { rewrite Forall_forall in Hall. specialize (Hall s Hin). lia. }
    exists m. destruct (Z.eqb_spec m 0) as [E|_]; [lia|].
    split; [reflexivity|]. split; [|exact Hall].
    apply (mathMax_in (map HealthUp.checked_at_ms rest) (HealthUp.checked_at_ms x)).
Qed.

Lemma lastCheckedLabel_latest_witness :
  let svc n t := {| HealthUp.name := n; HealthUp.url := "https://example.test";
                    HealthUp.is_up := true; HealthUp.status_code := Some 200%Z;
                    HealthUp.latency_ms := Some 12%Z;
                    HealthUp.checked_at_ms := t;
                    HealthUp.error_of := None |} in
  HealthUp.lastCheckedLabel [svc "api" 0%Z; svc "web" 0%Z] = HealthUp.NA
  /\ exists m,
       HealthUp.lastCheckedLabel
         [svc "api" 1700000000123%Z; svc "web" 1700000004567%Z; svc "db" 0%Z]
       = HealthUp.TimeOf m
       /\ In m (map HealthUp.checked_at_ms
                  [svc "api" 1700000000123%Z; svc "web" 1700000004567%Z; svc "db" 0%Z])
       /\ Forall (fun x => (HealthUp.checked_at_ms x <= m)%Z)
            [svc "api" 1700000000123%Z; svc "web" 1700000004567%Z; svc "db" 0%Z].
Proof.
  intros svc.
  destruct lastCheckedLabel_latest as (_ & _ & Hz & _ & Hm).
  split.
  - apply Hz. repeat constructor.
  - apply (Hm _ (svc "api" 1700000000123%Z)); [left; reflexivity|reflexivity].
Defined.

(** ** Polling: the lifecycle of a component *)

Section LifecycleFacts.

Variable w : Widget.
Implicit Types (c : Component w) (e : Event w) (es : list (Event w)).

Lemma run_app es es' c : run (es ++ es') c = run es' (run es c).
Proof. unfold run. apply fold_left_app. Qed.

Lemma run_cons e es c : run (e :: es) c = run es (step e c).
Proof. reflexivity. Qed.

(** While timer [h] is live, [n] ticks with no call settling in between
    issue [n] further calls, all of them outstanding together with the
    earlier ones. *)
Lemma ticks_pile_up (n : nat) h c :
  live h c = true ->
  let c' := run (repeat (Tick h) n) c in
  pending c' = (pending c ++ seq (calls c) n)%list
  /\ calls c' = (calls c + n)%nat
  /\ timers c' = timers c.
Proof.
  revert c. induction n as [|n IH]; intros c Hl; cbn [repeat].
  - cbn. rewrite app_nil_r, Nat.add_0_r. auto.
  - rewrite run_cons. cbn [step]. rewrite Hl.
    destruct (IH (callUpdate c)) as (Hp & Hc & Ht); [exact Hl|].
    cbv zeta. rewrite Hp, Hc, Ht. cbn [callUpdate pending calls timers seq].
    rewrite <- app_assoc. cbn [app]. repeat split. lia.
Qed.

Lemma onDestroy_keeps c :
  widget (onDestroy c) = widget c
  /\ pending (onDestroy c) = pending c
  /\ calls (onDestroy c) = calls c
  /\ interval (onDestroy c) = interval c.
Proof.
  unfold onDestroy. destruct (interval c) as [h|] eqn:E; [|auto].
  destruct (h =? 0)%Z; cbn; auto.
Qed.

Lemma mounted_live h0 : live h0 (mounted w h0) = true.
Proof. cbn. rewrite Z.eqb_refl. reflexivity. Qed.

Lemma mounted_wellMounted h0 : wellMounted h0 (mounted w h0).
Proof. split; [reflexivity|left; reflexivity]. Qed.

Lemma clear_own_timer h0 c :
  timers c = [(h0, intervalMs w)] \/ timers c = [] ->
  timers (clearInterval w h0 c) = [].
Proof.
  unfold clearInterval. cbn [timers].
  intros [-> | ->]; cbn; [rewrite Z.eqb_refl|]; reflexivity.
Qed.

Lemma step_wellMounted h0 e c : wellMounted h0 c -> wellMounted h0 (step e c).
Proof.
  intros [Hi Ht]. destruct e as [h|k o|]; cbn [step].
  - destruct (live h c); split; assumption.
  - destruct (outstanding k c); split; assumption.
  - unfold onDestroy. rewrite Hi.
    destruct (h0 =? 0)%Z; [split; assumption|].
    split; [exact Hi|]. right. apply clear_own_timer, Ht.
Qed.

Lemma run_wellMounted h0 es c : wellMounted h0 c -> wellMounted h0 (run es c).
Proof.
  revert c. induction es as [|e es IH]; intros c H; [exact H|].
  rewrite run_cons. apply IH, step_wellMounted, H.
Qed.

(** The handle is not zero, so [onDestroy] does clear the timer. *)
Lemma destroy_stops h0 c :
  (0 < h0)%Z -> wellMounted h0 c -> stopped h0 (step Destroy c).
Proof.
  intros Hpos [Hi Ht]. cbn [step]. unfold onDestroy. rewrite Hi.
  destruct (Z.eqb_spec h0 0) as [E|_]; [lia|].
  split; [exact Hi|]. apply clear_own_timer, Ht.
Qed.

Lemma step_stopped h0 e c :
  stopped h0 c -> stopped h0 (step e c) /\ calls (step e c) = calls c.
Proof.
  intros [Hi Ht]. destruct e as [h|k o|]; cbn [step].
  - unfold live. rewrite Ht. cbn. repeat split; assumption.
  - destruct (outstanding k c); repeat split; assumption.
  - unfold onDestroy. rewrite Hi.
    destruct (h0 =? 0)%Z; [repeat split; assumption|].
    unfold stopped, clearInterval. cbn [interval timers calls].
    rewrite Ht. repeat split; assumption.
Qed.

Lemma run_stopped h0 es c :
  stopped h0 c -> stopped h0 (run es c) /\ calls (run es c) = calls c.
Proof.
  revert c. induction es as [|e es IH]; intros c H; [split; [exact H|reflexivity]|].
  rewrite run_cons. destruct (step_stopped h0 e c H) as [Hs Hc].
  destruct (IH _ Hs) as [Hs' Hc']. split; [exact Hs'|congruence].
Qed.

Lemma destroy_stopped h0 c : stopped h0 c -> step Destroy c = c.
Proof.
  intros [Hi Ht]. cbn [step]. unfold onDestroy. rewrite Hi.
  destruct (h0 =? 0)%Z; [reflexivity|].
  unfold clearInterval. rewrite Ht. destruct c; cbn in *. subst. reflexivity.
Qed.

End LifecycleFacts.

(** C6, as the components implement it.  There is no serialisation: a
    tick of a widget's live interval timer issues a new adapter call at
    once, whatever calls are outstanding, and after the mount and [n]
    ticks during which no call settled, [n + 1] calls are outstanding
    together. *)
Theorem ticks_start_overlapping_calls :
  (forall i (c : Component (widgetOf i)) h,
      live h c = true ->
      pending (step (Tick h) c) = (pending c ++ [calls c])%list
      /\ calls (step (Tick h) c) = S (calls c))
  /\ (forall i h0 n,
      let c := run (repeat (Tick h0) n) (mounted (widgetOf i) h0) in
      pending c = seq 0 (S n) /\ length (pending c) = S n /\ calls c = S n).
Proof.
  split.
  - intros i c h Hl. cbn [step]. rewrite Hl. split; reflexivity.
  - intros i h0 n c.
    destruct (ticks_pile_up (widgetOf i) n h0 (mounted (widgetOf i) h0))
      as (Hp & Hc & _); [apply mounted_live|].
    fold c in Hp, Hc. rewrite Hp, Hc. cbn [mounted onMount setInterval
      callUpdate created pending calls app seq Nat.add].
    repeat split. cbn [length]. rewrite length_seq. reflexivity.
Qed.

Lemma ticks_start_overlapping_calls_witness :
  live 3%Z (mounted (widgetOf SentryW) 3%Z) = true
  /\ pending (step (Tick 3%Z) (mounted (widgetOf SentryW) 3%Z)) = [0; 1]%nat.
Proof.
  split; [reflexivity|].
  apply (proj1 ticks_start_overlapping_calls SentryW
           (mounted (widgetOf SentryW) 3%Z) 3%Z).
  reflexivity.
Defined.

(** C6 as stated fails: in the CPU widget a tick that fires while the first
    call is outstanding leaves two calls outstanding. *)
Lemma cpu_calls_overlap :
  ~ (forall es : list (Event (widgetOf CpuW)),
       (length (pending (run es (mounted (widgetOf CpuW) 1%Z))) <= 1)%nat).
Proof.
  intros H. specialize (H [Tick 1%Z]). cbn in H. lia.
Qed.

(** C7, as the components implement it.  Destroying a component touches
    neither its state nor its outstanding calls, and the result of a call
    that is outstanding then is applied to the state on arrival just as it
    would have been without the destruction. *)
Theorem result_after_destroy_is_applied :
  forall i (c : Component (widgetOf i)) k o,
    outstanding k c = true ->
    widget (step Destroy c) = widget c
    /\ pending (step Destroy c) = pending c
    /\ widget (step (Settle k o) (step Destroy c)) = update (widgetOf i) o (widget c)
    /\ widget (step (Settle k o) (step Destroy c)) = widget (step (Settle k o) c).
Proof.
  intros i c k o Ho. cbn [step].
  destruct (onDestroy_keeps (widgetOf i) c) as (Hw & Hp & _ & _).
  assert (Ho' : outstanding k (onDestroy c) = true).
  { unfold outstanding in *. rewrite Hp. exact Ho. }
  rewrite Ho', Ho. cbn [resume widget]. rewrite Hw. auto.
Qed.

Lemma result_after_destroy_is_applied_witness :
  outstanding 0 (mounted (widgetOf JiraW) 1%Z) = true
  /\ widget (step (Settle 0 (Rejected "HTTP 401"))
               (step Destroy (mounted (widgetOf JiraW) 1%Z)))
     = JiraTickets.updateTickets (Rejected "HTTP 401") JiraTickets.init.
Proof.
  split; [reflexivity|].
  apply (result_after_destroy_is_applied JiraW (mounted (widgetOf JiraW) 1%Z)
           0%nat (Rejected "HTTP 401")).
  reflexivity.
Defined.

(** C7 as stated fails: the Jira widget is destroyed while its first call
    is outstanding, and the tickets that call then delivers are stored. *)
Lemma jira_result_after_destroy_changes_state :
  let t0 := {| JiraTickets.key := "OPS-7"; JiraTickets.summary := "Rotate keys";
               JiraTickets.status := "Open"; JiraTickets.assignee := "nobody";
               JiraTickets.url := "https://jira.example/browse/OPS-7" |} in
  let c := step Destroy (mounted (widgetOf JiraW) 1%Z) in
  timers c = []
  /\ widget (step (@Settle (widgetOf JiraW) 0 (Resolved [t0])) c) <> widget c.
Proof. cbn. split; [reflexivity|discriminate]. Qed.

(** C8.  After a mounted component has been destroyed, a second
    destruction changes nothing, no live timer is left, and whatever
    events follow (ticks of any handle, calls settling, more
    destructions) no further adapter call is issued. *)
Theorem destroy_is_idempotent :
  forall i h0 (es1 es2 : list (Event (widgetOf i))),
    (0 < h0)%Z ->
    let c1 := step Destroy (run es1 (mounted (widgetOf i) h0)) in
    step Destroy c1 = c1
    /\ timers c1 = []
    /\ calls (run es2 (step Destroy c1)) = calls c1
    /\ timers (run es2 (step Destroy c1)) = [].
Proof.
  intros i h0 es1 es2 Hpos c1.
  assert (Hs : stopped h0 c1).
  { apply destroy_stops; [exact Hpos|].
    apply run_wellMounted, mounted_wellMounted. }
  rewrite (destroy_stopped _ _ _ Hs).
  destruct (run_stopped _ h0 es2 c1 Hs) as [[_ Ht] Hc].
  repeat split; [apply Hs|exact Hc|exact Ht].
Qed.

Lemma destroy_is_idempotent_witness :
  (0 < 7)%Z
  /\ let c1 := step Destroy
                 (run [Tick 7%Z; Settle 0 (Rejected "HTTP 500"); Tick 7%Z]
                    (mounted (widgetOf CpuW) 7%Z)) in
     step Destroy c1 = c1
     /\ timers c1 = []
     /\ calls (run [Tick 7%Z; Destroy; Settle 1 (Rejected "late"); Tick 7%Z]
                 (step Destroy c1)) = calls c1
     /\ timers (run [Tick 7%Z; Destroy; Settle 1 (Rejected "late"); Tick 7%Z]
                  (step Destroy c1)) = [].
Proof.
  split; [reflexivity|].
  apply (destroy_is_idempotent CpuW 7%Z
           [Tick 7%Z; Settle 0 (Rejected "HTTP 500"); Tick 7%Z]
           [Tick 7%Z; Destroy; Settle 1 (Rejected "late"); Tick 7%Z]).
  reflexivity.
Defined.

(** C9, as the components implement it.  Mounting a widget issues one
    adapter call at once and registers one interval timer, each tick of
    which issues one more call; the period is 2 s for the CPU and RAM
    widgets, 3 s for the service-health, Sentry and Spotify widgets, 5 s
    for the Docker widget and 30 s for both Jira widgets. *)
Theorem mount_polls_at_the_widget_interval :
  forall i h0,
    let c := mounted (widgetOf i) h0 in
    calls c = 1%nat
    /\ pending c = [0%nat]
    /\ interval c = Some h0
    /\ timers c = [(h0, intervalMs (widgetOf i))]
    /\ (forall n, calls (run (repeat (Tick h0) n) c) = S n)
    /\ intervalMs (widgetOf i) =
       match i with
       | CpuW | RamW => 2000%Z
       | HealthW | SentryW | SpotifyW => 3000%Z
       | DockerW => 5000%Z
       | JiraW | JiraAltW => 30000%Z
       end.
Proof.
  intros i h0 c. repeat split.
  - intros n.
    destruct (ticks_pile_up (widgetOf i) n h0 c) as (_ & Hc & _);
      [apply mounted_live|].
    rewrite Hc. reflexivity.
  - destruct i; reflexivity.
Qed.

(** C9 as stated fails: the Docker widget polls at none of the three
    periods the claim names. *)
Lemma docker_interval_is_5s :
  In DockerW all_widgets
  /\ ~ In (intervalMs (widgetOf DockerW)) [2000%Z; 3000%Z; 30000%Z].
Proof.
  split; [cbn; tauto|].
  cbn. intros [H|[H|[H|[]]]]; discriminate.
Qed.

(** * Further properties of the components *)

(** ** Lower-casing and trimming *)

Lemma lowerChar_idempotent (c : ascii) :
  Js.lowerChar (Js.lowerChar c) = Js.lowerChar c.
Proof. destruct c as [[] [] [] [] [] [] [] []]; reflexivity. Qed.

Lemma toLowerCase_idempotent (s : string) :
  Js.toLowerCase (Js.toLowerCase s) = Js.toLowerCase s.
Proof.
  induction s as [|c s IH]; [reflexivity|].
  cbn [Js.toLowerCase]. rewrite lowerChar_idempotent, IH. reflexivity.
Qed.

Lemma isWhiteSpace_lowerChar (c : ascii) :
  Js.isWhiteSpace (Js.lowerChar c) = Js.isWhiteSpace c.
Proof. destruct c as [[] [] [] [] [] [] [] []]; reflexivity. Qed.

(** ** Status badges of the Jira widgets *)

(** X1.  The badge of the Jira widget looks at the status in lower case
    only; a status that contains "done" or "closed", in any casing and
    anywhere, is green whatever else it says; and a status of ASCII
    characters is red exactly when it contains "blocked" and none of the
    eleven words of the four earlier rules. *)
Theorem jira_badge_rules :
  (forall status,
      JiraTickets.getStatusBadgeColor (Js.toLowerCase status)
      = JiraTickets.getStatusBadgeColor status)
  /\ (forall pre x post,
      Js.toLowerCase x = "done" \/ Js.toLowerCase x = "closed" ->
      JiraTickets.getStatusBadgeColor (pre ++ x ++ post)
      = "bg-green-100 text-green-700")
  /\ (forall status,
      Js.isAscii status = true ->
      JiraTickets.getStatusBadgeColor status = "bg-red-100 text-red-700"
      <-> Js.includes (Js.toLowerCase status) "blocked" = true
          /\ forallb (fun word => negb (Js.includes (Js.toLowerCase status) word))
               ["done"; "closed"; "progress"; "development"; "review"; "test";
                "qa"; "todo"; "backlog"; "open"; "zu erledigen"] = true).
Proof.
  repeat apply conj.
  - intros status. unfold JiraTickets.getStatusBadgeColor.
    rewrite toLowerCase_idempotent. reflexivity.
  - intros pre x post Hx. unfold JiraTickets.getStatusBadgeColor. cbv zeta.
    rewrite !JsFacts.toLowerCase_app.
    destruct Hx as [-> | ->]; rewrite JsFacts.includes_app;
      rewrite ?orb_true_r; reflexivity.
  - intros status _. unfold JiraTickets.getStatusBadgeColor. cbv zeta.
    generalize (Js.toLowerCase status). intros l. cbn [forallb].
    destruct (Js.includes l "done"); [cbn; split; [discriminate|intros [_ ?]; discriminate]|].
    destruct (Js.includes l "closed"); [cbn; split; [discriminate|intros [_ ?]; discriminate]|].
    destruct (Js.includes l "progress"); [cbn; split; [discriminate|intros [_ ?]; discriminate]|].
    destruct (Js.includes l "development"); [cbn; split; [discriminate|intros [_ ?]; discriminate]|].
    destruct (Js.includes l "review"); [cbn; split; [discriminate|intros [_ ?]; discriminate]|].
    destruct (Js.includes l "test"); [cbn; split; [discriminate|intros [_ ?]; discriminate]|].
    destruct (Js.includes l "qa"); [cbn; split; [discriminate|intros [_ ?]; discriminate]|].
    destruct (Js.includes l "todo"); [cbn; split; [discriminate|intros [_ ?]; discriminate]|].
    destruct (Js.includes l "backlog"); [cbn; split; [discriminate|intros [_ ?]; discriminate]|].
    destruct (Js.includes l "open"); [cbn; split; [discriminate|intros [_ ?]; discriminate]|].
    destruct (Js.includes l "zu erledigen"); [cbn; split; [discriminate|intros [_ ?]; discriminate]|].
    destruct (Js.includes l "blocked"); cbn; split; intros; intuition discriminate.
Qed.

Lemma jira_badge_rules_witness :
  JiraTickets.getStatusBadgeColor ("Blocked, was " ++ "DONE" ++ " before")
  = "bg-green-100 text-green-700"
  /\ JiraTickets.getStatusBadgeColor "Blocked" = "bg-red-100 text-red-700".
Proof.
  destruct jira_badge_rules as (_ & Hg & Hr). split.
  - apply Hg. left. reflexivity.
  - apply Hr; [reflexivity|]. split; reflexivity.
Defined.

(** X2.  The two variants of the Jira widget give the green badge to the
    same statuses; a status that is red, or has the default colour, in the
    main variant has the same colour in the alternate one; and the
    alternate variant knows no other colour than green, red and the
    default, so that the blue, amber and gray statuses of the main
    variant are red or default there. *)
Theorem jira_badge_variants :
  forall status,
    (JiraTickets.getStatusBadgeColor status = "bg-green-100 text-green-700"
     <-> JiraTicketsAlt.getStatusBadgeColor status = "bg-green-100 text-green-700")
    /\ (JiraTickets.getStatusBadgeColor status = "bg-red-100 text-red-700" ->
        JiraTicketsAlt.getStatusBadgeColor status = "bg-red-100 text-red-700")
    /\ (JiraTickets.getStatusBadgeColor status = "bg-primary-100 text-primary-700" ->
        JiraTicketsAlt.getStatusBadgeColor status = "bg-primary-100 text-primary-700")
    /\ (JiraTicketsAlt.getStatusBadgeColor status = "bg-green-100 text-green-700"
        \/ JiraTicketsAlt.getStatusBadgeColor status = "bg-red-100 text-red-700"
        \/ JiraTicketsAlt.getStatusBadgeColor status = "bg-primary-100 text-primary-700").
Proof.
  intros status.
  unfold JiraTickets.getStatusBadgeColor, JiraTicketsAlt.getStatusBadgeColor.
  cbv zeta. generalize (Js.toLowerCase status). intros l.
  destruct (Js.includes l "done"); [cbn; intuition discriminate|].
  destruct (Js.includes l "closed"); [cbn; intuition discriminate|].
  cbn [orb].
  destruct (Js.includes l "blocked").
  - destruct (Js.includes l "progress"); [cbn; intuition discriminate|].
    destruct (Js.includes l "development"); [cbn; intuition discriminate|].
    destruct (Js.includes l "review"); [cbn; intuition discriminate|].
    destruct (Js.includes l "test"); [cbn; intuition discriminate|].
    destruct (Js.includes l "qa"); [cbn; intuition discriminate|].
    destruct (Js.includes l "todo"); [cbn; intuition discriminate|].
    destruct (Js.includes l "backlog"); [cbn; intuition discriminate|].
    destruct (Js.includes l "open"); [cbn; intuition discriminate|].
    destruct (Js.includes l "zu erledigen"); cbn; intuition discriminate.
  - destruct (Js.includes l "progress"); [cbn; intuition discriminate|].
    destruct (Js.includes l "development"); [cbn; intuition discriminate|].
    destruct (Js.includes l "review"); [cbn; intuition discriminate|].
    destruct (Js.includes l "test"); [cbn; intuition discriminate|].
    destruct (Js.includes l "qa"); [cbn; intuition discriminate|].
    destruct (Js.includes l "todo"); [cbn; intuition discriminate|].
    destruct (Js.includes l "backlog"); [cbn; intuition discriminate|].
    destruct (Js.includes l "open"); [cbn; intuition discriminate|].
    destruct (Js.includes l "zu erledigen"); cbn; intuition discriminate.
Qed.

Lemma jira_badge_variants_witness :
  JiraTickets.getStatusBadgeColor "Blocked" = "bg-red-100 text-red-700"
  /\ JiraTicketsAlt.getStatusBadgeColor "Blocked" = "bg-red-100 text-red-700"
  /\ JiraTickets.getStatusBadgeColor "Waiting" = "bg-primary-100 text-primary-700"
  /\ JiraTicketsAlt.getStatusBadgeColor "Waiting" = "bg-primary-100 text-primary-700".
Proof.
  split; [reflexivity|].
  split; [apply (jira_badge_variants "Blocked"); reflexivity|].
  split; [reflexivity|].
  apply (jira_badge_variants "Waiting"); reflexivity.
Defined.

(** X3.  In the alternate Jira widget the border of a ticket card and its
    status badge always have the same colour: both green, both red or
    both the default. *)
Theorem jiraAlt_border_matches_badge :
  forall status,
    (JiraTicketsAlt.getStatusColor status = "border-green-500 bg-green-50"
     /\ JiraTicketsAlt.getStatusBadgeColor status = "bg-green-100 text-green-700")
    \/ (JiraTicketsAlt.getStatusColor status = "border-red-500 bg-red-50"
        /\ JiraTicketsAlt.getStatusBadgeColor status = "bg-red-100 text-red-700")
    \/ (JiraTicketsAlt.getStatusColor status = "border-primary-500 bg-primary-50"
        /\ JiraTicketsAlt.getStatusBadgeColor status = "bg-primary-100 text-primary-700").
Proof.
  intros status.
  unfold JiraTicketsAlt.getStatusColor, JiraTicketsAlt.getStatusBadgeColor.
  cbv zeta. generalize (Js.toLowerCase status). intros l.
  destruct (Js.includes l "done"); [left; split; reflexivity|].
  destruct (Js.includes l "closed"); [left; split; reflexivity|].
  cbn [orb].
  destruct (Js.includes l "blocked");
    [right; left; split; reflexivity|right; right; split; reflexivity].
Qed.

(** ** Trimming *)

Lemma trimStart_white_app (l s : string) :
  Js.allWhiteSpace l = true -> Js.trimStart (l ++ s) = Js.trimStart s.
Proof.
  induction l as [|c l IH]; cbn; [reflexivity|].
  intros H. apply andb_true_iff in H. destruct H as [-> H]. apply IH, H.
Qed.

Lemma trimEnd_white (r : string) :
  Js.allWhiteSpace r = true -> Js.trimEnd r = EmptyString.
Proof.
  induction r as [|c r IH]; cbn; [reflexivity|].
  intros H. apply andb_true_iff in H. destruct H as [-> H].
  rewrite (IH H). reflexivity.
Qed.

Lemma trimEnd_app_white (s r : string) :
  Js.allWhiteSpace r = true -> Js.trimEnd (s ++ r) = Js.trimEnd s.
Proof.
  intros H. induction s as [|c s IH]; cbn.
  - apply trimEnd_white, H.
  - rewrite IH. reflexivity.
Qed.

Lemma toLowerCase_trimStart (s : string) :
  Js.toLowerCase (Js.trimStart s) = Js.trimStart (Js.toLowerCase s).
Proof.
  induction s as [|c s IH]; cbn; [reflexivity|].
  rewrite isWhiteSpace_lowerChar.
  destruct (Js.isWhiteSpace c); [exact IH|reflexivity].
Qed.

Lemma toLowerCase_trimEnd (s : string) :
  Js.toLowerCase (Js.trimEnd s) = Js.trimEnd (Js.toLowerCase s).
Proof.
  induction s as [|c s IH]; cbn; [reflexivity|].
  rewrite <- IH, isWhiteSpace_lowerChar.
  destruct (Js.trimEnd s); cbn; [destruct (Js.isWhiteSpace c)|]; reflexivity.
Qed.

Lemma toLowerCase_trim (s : string) :
  Js.toLowerCase (Js.trim s) = Js.trim (Js.toLowerCase s).
Proof. unfold Js.trim. rewrite toLowerCase_trimEnd, toLowerCase_trimStart. reflexivity. Qed.

Lemma allWhiteSpace_toLowerCase (s : string) :
  Js.allWhiteSpace (Js.toLowerCase s) = Js.allWhiteSpace s.
Proof.
  induction s as [|c s IH]; cbn; [reflexivity|].
  rewrite isWhiteSpace_lowerChar, IH. reflexivity.
Qed.

Lemma trimStart_trimEnd (s : string) :
  Js.trimStart (Js.trimEnd s) = Js.trimEnd (Js.trimStart s).
Proof.
  induction s as [|c s IH]; [reflexivity|].
  cbn [Js.trimStart Js.trimEnd].
  destruct (Js.isWhiteSpace c) eqn:W.
  - rewrite <- IH. destruct (Js.trimEnd s); cbn; rewrite ?W; reflexivity.
  - cbn [Js.trimEnd]. destruct (Js.trimEnd s); cbn; rewrite W; reflexivity.
Qed.

Lemma trimStart_idempotent (s : string) :
  Js.trimStart (Js.trimStart s) = Js.trimStart s.
Proof.
  induction s as [|c s IH]; [reflexivity|]. cbn.
  destruct (Js.isWhiteSpace c) eqn:W; [exact IH|]. cbn. rewrite W. reflexivity.
Qed.

Lemma trimEnd_idempotent (s : string) :
  Js.trimEnd (Js.trimEnd s) = Js.trimEnd s.
Proof.
  induction s as [|c s IH]; [reflexivity|]. cbn.
  destruct (Js.trimEnd s) as [|d t] eqn:E.
  - destruct (Js.isWhiteSpace c) eqn:W; cbn; rewrite ?W; reflexivity.
  - cbn [Js.trimEnd] in *. rewrite IH. reflexivity.
Qed.

Lemma trim_idempotent (s : string) : Js.trim (Js.trim s) = Js.trim s.
Proof.
  unfold Js.trim.
  rewrite trimStart_trimEnd, trimStart_idempotent, trimEnd_idempotent.
  reflexivity.
Qed.

(** X4.  The assignee of a ticket is highlighted when the name is
    "florian raith" in any casing, with any white space around it; and
    trimming or lower-casing the assignee never changes the class. *)
Theorem assignee_highlight :
  (forall l x r,
      Js.allWhiteSpace l = true -> Js.allWhiteSpace r = true ->
      Js.toLowerCase x = "florian raith" ->
      JiraTickets.getAssigneeClass (l ++ x ++ r) = "text-primary-700 font-semibold")
  /\ (forall a,
      JiraTickets.getAssigneeClass (Js.trim a) = JiraTickets.getAssigneeClass a
      /\ JiraTickets.getAssigneeClass (Js.toLowerCase a)
         = JiraTickets.getAssigneeClass a).
Proof.
  split.
  - intros l x r Hl Hr Hx. unfold JiraTickets.getAssigneeClass.
    rewrite toLowerCase_trim, !JsFacts.toLowerCase_app, Hx.
    unfold Js.trim. rewrite trimStart_white_app
      by (rewrite allWhiteSpace_toLowerCase; exact Hl).
    change (Js.trimStart ("florian raith" ++ Js.toLowerCase r))
      with ("florian raith" ++ Js.toLowerCase r).
    rewrite trimEnd_app_white by (rewrite allWhiteSpace_toLowerCase; exact Hr).
    reflexivity.
  - intros a. unfold JiraTickets.getAssigneeClass. split.
    + rewrite trim_idempotent. reflexivity.
    + rewrite <- toLowerCase_trim, toLowerCase_idempotent. reflexivity.
Qed.

Lemma assignee_highlight_witness :
  JiraTickets.getAssigneeClass ("  " ++ "Florian RAITH" ++ " ")
  = "text-primary-700 font-semibold".
Proof.
  apply (proj1 assignee_highlight "  " "Florian RAITH" " "); reflexivity.
Defined.

(** ** Port chips of the Docker widget *)

Lemma filter_trimmed (l : list string) :
  filter Js.nonEmpty (map Js.trim l)
  = map Js.trim (filter (fun p => Js.nonEmpty (Js.trim p)) l).
Proof.
  induction l as [|p l IH]; [reflexivity|]. cbn [map filter].
  destruct (Js.nonEmpty (Js.trim p)); cbn [map]; rewrite IH; reflexivity.
Qed.

Lemma in_firstn {A : Type} (n : nat) (l : list A) (x : A) :
  In x (firstn n l) -> In x l.
Proof.
  intros H. rewrite <- (firstn_skipn n l). apply in_or_app. left. exact H.
Qed.

Lemma shownPorts_length (ports : string) :
  length (DockerContainers.shownPorts ports)
  = Nat.min 3 (DockerContainers.portCount ports).
Proof.
  unfold DockerContainers.shownPorts, DockerContainers.portCount.
  rewrite length_firstn, filter_trimmed, length_map. reflexivity.
Qed.

(** X5.  For a port text of ASCII characters: a container card shows at
    most three port chips; each chip is a
    non-empty, trimmed piece of the comma-separated port text; and the
    chips together with the "+N" figure account for every non-blank
    piece: "+N" appears exactly when there are more than three, and then
    N is the number of pieces left out.  A port text that is not empty
    but has only blank pieces shows neither chips nor "No ports". *)
Theorem docker_port_chips :
  forall ports,
    Js.isAscii ports = true ->
    (forall p, In p (DockerContainers.shownPorts ports) ->
       p <> EmptyString /\ Js.trim p = p
       /\ exists q, In q (Js.split "," ports) /\ p = Js.trim q)
    /\ (forall chips more,
       DockerContainers.portsView ports = DockerContainers.ShowPorts chips more ->
       (length chips <= 3)%nat
       /\ (length chips + match more with Some k => k | None => 0 end
           = DockerContainers.portCount ports)%nat
       /\ (more = None <-> (DockerContainers.portCount ports <= 3)%nat)
       /\ more <> Some 0%nat)
    /\ (ports <> EmptyString -> DockerContainers.portCount ports = 0%nat ->
       DockerContainers.portsView ports = DockerContainers.ShowPorts [] None).
Proof.
  intros ports _. repeat apply conj.
  - intros p Hp. unfold DockerContainers.shownPorts in Hp.
    apply in_firstn in Hp. apply filter_In in Hp. destruct Hp as [Hin Hne].
    apply in_map_iff in Hin. destruct Hin as (q & <- & Hq).
    split; [intros E; rewrite E in Hne; discriminate|].
    split; [apply trim_idempotent|]. exists q. split; [exact Hq|reflexivity].
  - intros chips more H. unfold DockerContainers.portsView in H.
    destruct (Js.nonEmpty ports); [|discriminate].
    injection H as <- <-.
    pose proof (shownPorts_length ports) as L. rewrite L.
    destruct (Nat.ltb_spec 3 (DockerContainers.portCount ports)).
    + repeat split; try lia; try discriminate.
      intros E. injection E as E. lia.
    + repeat split; try lia; try discriminate; auto.
  - intros Hne H0. unfold DockerContainers.portsView.
    destruct ports as [|c t]; [contradiction|]. cbn [Js.nonEmpty].
    pose proof (shownPorts_length (String c t)) as L. rewrite H0 in *.
    destruct (DockerContainers.shownPorts (String c t)); [reflexivity|discriminate].
Qed.

Lemma docker_port_chips_witness :
  (let ports := "80/tcp, 443/tcp ,, 8080/tcp,9090/tcp , 5432/tcp" in
   DockerContainers.portsView ports
   = DockerContainers.ShowPorts ["80/tcp"; "443/tcp"; "8080/tcp"] (Some 2%nat)
   /\ (3 + 2 = DockerContainers.portCount ports)%nat)
  /\ DockerContainers.portsView " , " = DockerContainers.ShowPorts [] None.
Proof.
  split.
  - split; [reflexivity|].
    apply (proj1 (proj2 (docker_port_chips
             "80/tcp, 443/tcp ,, 8080/tcp,9090/tcp , 5432/tcp" eq_refl))
             ["80/tcp"; "443/tcp"; "8080/tcp"] (Some 2%nat)).
    reflexivity.
  - apply (proj2 (proj2 (docker_port_chips " , " eq_refl)));
      [discriminate|reflexivity].
Defined.

(** ** The Spotify widget *)

(** X6.  In the Spotify widget a successful fetch always brings up the
    player with the fetched track, and a failed fetch never leaves the
    player up: it shows "Spotify is not running" when the message
    contains "not running", else "Only supported on macOS" when it
    contains "only supported", else "No track playing", which is also
    what the widget shows before its first fetch. *)
Theorem spotify_views :
  (forall os d s,
      Spotify.render (settleAll Spotify.updateTrack (os ++ [Resolved d]) s)
      = Spotify.ShowTrack d)
  /\ (forall os m s,
      Spotify.render (settleAll Spotify.updateTrack (os ++ [Rejected m]) s)
      = if Js.includes m "not running" then Spotify.ShowNotRunning
        else if Js.includes m "only supported" then Spotify.ShowOnlyMacOS
        else Spotify.ShowNoTrack)
  /\ Spotify.render Spotify.init = Spotify.ShowNoTrack.
Proof.
  repeat apply conj; [| |reflexivity]; intros os x s; rewrite settleAll_snoc.
  - reflexivity.
  - cbn [Spotify.updateTrack]. unfold Spotify.render, Spotify.fallback.
    cbn [Spotify.error Spotify.track Js.optIncludes].
    destruct (Js.truthy (Some x)); reflexivity.
Qed.

(** ** Recovery *)

(** X7.  A successful fetch wipes the slate in every widget: whatever
    calls settled before and whatever state they left, the state after it
    holds the fetched payload, no error and no loading flag, and the
    widget renders that payload (or its "nothing found" text when the
    fetched list is empty). *)
Theorem success_resets_the_widget :
  (forall os d s,
      settleAll CpuUsage.updateCpuUsage (os ++ [Resolved d]) s
      = {| CpuUsage.cpuUsage := d; CpuUsage.isLoading := false;
           CpuUsage.loadError := None |}
      /\ CpuUsage.render (settleAll CpuUsage.updateCpuUsage (os ++ [Resolved d]) s)
         = CpuUsage.ShowUsage d)
  /\ (forall os d s,
      settleAll RamUsage.updateRamUsage (os ++ [Resolved d]) s
      = {| RamUsage.ramUsage := d; RamUsage.isLoading := false;
           RamUsage.loadError := None |}
      /\ RamUsage.render (settleAll RamUsage.updateRamUsage (os ++ [Resolved d]) s)
         = RamUsage.ShowUsage d)
  /\ (forall os d s,
      settleAll HealthUp.updateHealth (os ++ [Resolved d]) s
      = {| HealthUp.services := d; HealthUp.isLoading := false;
           HealthUp.error := None |}
      /\ HealthUp.render (settleAll HealthUp.updateHealth (os ++ [Resolved d]) s)
         = match d with
           | [] => HealthUp.ShowNoServices
           | _ :: _ => HealthUp.ShowServices d
           end)
  /\ (forall os d s,
      settleAll SentryIssues.updateIssues (os ++ [Resolved d]) s
      = {| SentryIssues.issues := d; SentryIssues.error := None;
           SentryIssues.isLoading := false |}
      /\ SentryIssues.render (settleAll SentryIssues.updateIssues (os ++ [Resolved d]) s)
         = match d with
           | [] => SentryIssues.ShowNoIssues
           | _ :: _ => SentryIssues.ShowIssues d
           end)
  /\ (forall os d s,
      settleAll JiraTickets.updateTickets (os ++ [Resolved d]) s
      = {| JiraTickets.tickets := d; JiraTickets.error := None;
           JiraTickets.isLoading := false |}
      /\ JiraTickets.render (settleAll JiraTickets.updateTickets (os ++ [Resolved d]) s)
         = match d with
           | [] => JiraTickets.ShowNoTickets
           | _ :: _ => JiraTickets.ShowTickets d
           end)
  /\ (forall os d s,
      settleAll DockerContainers.updateContainers (os ++ [Resolved d]) s
      = {| DockerContainers.containers := d; DockerContainers.error := None |}
      /\ DockerContainers.render
           (settleAll DockerContainers.updateContainers (os ++ [Resolved d]) s)
         = match d with
           | [] => DockerContainers.ShowNoContainers
           | _ :: _ => DockerContainers.ShowContainers d
           end)
  /\ (forall os d s,
      settleAll JiraTicketsAlt.updateTickets (os ++ [Resolved d]) s
      = {| JiraTicketsAlt.tickets := d; JiraTicketsAlt.error := None |}
      /\ JiraTicketsAlt.render
           (settleAll JiraTicketsAlt.updateTickets (os ++ [Resolved d]) s)
         = match d with
           | [] => JiraTicketsAlt.ShowNoTickets
           | _ :: _ => JiraTicketsAlt.ShowTickets d
           end).
Proof.
  repeat apply conj; intros os d s; rewrite settleAll_snoc;
    (split; [reflexivity|]); try reflexivity; destruct d; reflexivity.
Qed.

(** ** The "Last checked" label *)

Lemma mathMax_unique (x : Z) (rest : list Z) (m : Z) :
  In m (x :: rest) -> Forall (fun y => (y <= m)%Z) (x :: rest) ->
  HealthUp.mathMax x rest = m.
Proof.
  intros Hin Hall.
  destruct (mathMax_bounds rest x) as [Hx Hrest].
  pose proof (mathMax_in rest x) as Hm.
  assert (H1 : (m <= HealthUp.mathMax x rest)%Z).
  { destruct Hin as [<-|Hin]; [exact Hx|].
    rewrite Forall_forall in Hrest. apply Hrest, Hin. }
  assert (H2 : (HealthUp.mathMax x rest <= m)%Z).
  { rewrite Forall_forall in Hall. apply Hall, Hm. }
  lia.
Qed.

(** X8.  The "Last checked" label does not depend on the order in which
    the services are listed, and failed fetches leave it as it was: after
    a successful fetch of [d] and any run of failures the label is still
    the one of [d], also while the widget renders "Unable to load health
    checks". *)
Theorem lastCheckedLabel_order_and_failures :
  (forall services services',
      Permutation services services' ->
      HealthUp.lastCheckedLabel services = HealthUp.lastCheckedLabel services')
  /\ (forall d msgs s,
      HealthUp.lastCheckedLabel
        (HealthUp.services
           (failures HealthUp.updateHealth msgs
              (HealthUp.updateHealth (Resolved d) s)))
      = HealthUp.lastCheckedLabel d).
Proof.
  split.
  - intros l l' P. unfold HealthUp.lastCheckedLabel.
    pose proof (Permutation_map HealthUp.checked_at_ms P) as Pm.
    destruct (map HealthUp.checked_at_ms l) as [|x rest] eqn:E;
      destruct (map HealthUp.checked_at_ms l') as [|x' rest'] eqn:E'.
    + reflexivity.
    + apply Permutation_nil in Pm. discriminate.
    + apply Permutation_sym, Permutation_nil in Pm. discriminate.
    + f_equal. apply mathMax_unique.
      * apply (Permutation_in _ (Permutation_sym Pm)), mathMax_in.
      * destruct (mathMax_bounds rest' x') as [Hx Hr].
        assert (Hall : Forall (fun y => (y <= HealthUp.mathMax x' rest')%Z)
                         (x' :: rest')) by (constructor; assumption).
        rewrite Forall_forall in *. intros y Hy.
        apply Hall, (Permutation_in _ Pm), Hy.
  - intros d msgs s. rewrite health_failures_keep. reflexivity.
Qed.

Lemma lastCheckedLabel_order_and_failures_witness :
  let svc n t := {| HealthUp.name := n; HealthUp.url := "https://example.test";
                    HealthUp.is_up := true; HealthUp.status_code := Some 200%Z;
                    HealthUp.latency_ms := Some 12%Z;
                    HealthUp.checked_at_ms := t;
                    HealthUp.error_of := None |} in
  HealthUp.lastCheckedLabel [svc "api" 17%Z; svc "web" 42%Z; svc "db" 5%Z]
  = HealthUp.lastCheckedLabel [svc "db" 5%Z; svc "api" 17%Z; svc "web" 42%Z].
Proof.
  intros svc.
  apply (proj1 lastCheckedLabel_order_and_failures).
  apply Permutation_sym. apply perm_trans with
    (l' := [svc "api" 17%Z; svc "db" 5%Z; svc "web" 42%Z]).
  - apply perm_swap.
  - apply perm_skip, perm_swap.
Defined.

(** ** The two variants of the Jira widget after a failure *)

Lemma jiraAlt_failure_view (m : string) (s : JiraTicketsAlt.State) :
  JiraTicketsAlt.render (JiraTicketsAlt.updateTickets (Rejected m) s) =
  match m with
  | EmptyString => JiraTicketsAlt.ShowNoTickets
  | String _ _ => JiraTicketsAlt.errorText m
  end.
Proof. destruct m; reflexivity. Qed.

(** X9.  For a failure message without "loading" the two variants of the
    Jira widget render the same branch.  For a message with "loading" (in
    any casing) the main variant renders its loading branch, while the
    alternate variant, which has none, renders one of its three error
    texts. *)
Theorem jira_variants_after_failure :
  (forall m s s',
      Js.includes (Js.toLowerCase m) "loading" = false ->
      let v := JiraTickets.render (JiraTickets.updateTickets (Rejected m) s) in
      let v' := JiraTicketsAlt.render (JiraTicketsAlt.updateTickets (Rejected m) s') in
      (v = JiraTickets.ShowNotConfigured <-> v' = JiraTicketsAlt.ShowNotConfigured)
      /\ (v = JiraTickets.ShowAuthFailed <-> v' = JiraTicketsAlt.ShowAuthFailed)
      /\ (v = JiraTickets.ShowErrorLoading <-> v' = JiraTicketsAlt.ShowErrorLoading)
      /\ (v = JiraTickets.ShowNoTickets <-> v' = JiraTicketsAlt.ShowNoTickets))
  /\ (forall m s s',
      Js.includes (Js.toLowerCase m) "loading" = true ->
      JiraTickets.render (JiraTickets.updateTickets (Rejected m) s)
      = JiraTickets.ShowLoading
      /\ (JiraTicketsAlt.render (JiraTicketsAlt.updateTickets (Rejected m) s')
          = JiraTicketsAlt.ShowNotConfigured
          \/ JiraTicketsAlt.render (JiraTicketsAlt.updateTickets (Rejected m) s')
             = JiraTicketsAlt.ShowAuthFailed
          \/ JiraTicketsAlt.render (JiraTicketsAlt.updateTickets (Rejected m) s')
             = JiraTicketsAlt.ShowErrorLoading)).
Proof.
  split.
  - intros m s s' Hl v v'. subst v v'.
    rewrite jira_failure_view, jiraAlt_failure_view, Hl.
    destruct m as [|c t]; [repeat split; intros; discriminate|].
    unfold JiraTickets.errorText, JiraTicketsAlt.errorText.
    destruct (Js.includes (String c t) "environment variable"
              || Js.includes (String c t) "JIRA_");
      [repeat split; intros; (reflexivity || discriminate)|].
    destruct (Js.includes (String c t) "401" || Js.includes (String c t) "403");
      repeat split; intros; (reflexivity || discriminate).
  - intros m s s' Hl.
    rewrite jira_failure_view, jiraAlt_failure_view, Hl.
    split; [reflexivity|].
    destruct m as [|c t]; [discriminate|].
    unfold JiraTicketsAlt.errorText.
    destruct (Js.includes (String c t) "environment variable"
              || Js.includes (String c t) "JIRA_"); [auto|].
    destruct (Js.includes (String c t) "401" || Js.includes (String c t) "403");
      auto.
Qed.

Lemma jira_variants_after_failure_witness :
  (JiraTickets.render
     (JiraTickets.updateTickets (Rejected "HTTP 403 Forbidden") JiraTickets.init)
   = JiraTickets.ShowAuthFailed
   <-> JiraTicketsAlt.render
         (JiraTicketsAlt.updateTickets (Rejected "HTTP 403 Forbidden")
            JiraTicketsAlt.init)
       = JiraTicketsAlt.ShowAuthFailed)
  /\ JiraTickets.render
       (JiraTickets.updateTickets (Rejected "Still Loading") JiraTickets.init)
     = JiraTickets.ShowLoading.
Proof.
  destruct jira_variants_after_failure as [Hsame Hload]. split.
  - apply (Hsame "HTTP 403 Forbidden" JiraTickets.init JiraTicketsAlt.init).
    reflexivity.
  - apply (Hload "Still Loading" JiraTickets.init JiraTicketsAlt.init).
    reflexivity.
Defined.

(** ** Order of results, and what leaves the state alone *)

Lemma outstanding_resume (w : Widget) (c : Component w) (j k : nat)
    (o : Outcome (Payload w)) :
  j <> k -> outstanding j (resume k o c) = outstanding j c.
Proof.
  intros Hjk. unfold outstanding, resume. cbn [pending].
  induction (pending c) as [|x l IH]; [reflexivity|].
  cbn [filter existsb].
  destruct (Nat.eqb_spec x k) as [->|Hx]; cbn [negb].
  - rewrite IH. destruct (Nat.eqb_spec k j) as [E|_]; [congruence|reflexivity].
  - cbn [existsb]. rewrite IH. reflexivity.
Qed.

(** X10.  Results are applied in the order in which the calls settle,
    not in the order in which they were issued: when two outstanding
    calls settle, the state is the update by the later-settling result of
    the update by the earlier-settling one.  So when the CPU widget has
    two overlapping calls and the second resolves before the first, the
    payload of the first, older call is what stays stored. *)
Theorem results_apply_in_settle_order :
  (forall i (c : Component (widgetOf i)) j k oj ok,
      j <> k -> outstanding j c = true -> outstanding k c = true ->
      widget (run [Settle k ok; Settle j oj] c)
      = update (widgetOf i) oj (update (widgetOf i) ok (widget c)))
  /\ (forall h0 d0 d1,
      CpuUsage.cpuUsage
        (widget (run [Tick h0;
                      @Settle (widgetOf CpuW) 1 (Resolved d1);
                      @Settle (widgetOf CpuW) 0 (Resolved d0)]
                   (mounted (widgetOf CpuW) h0)))
      = d0).
Proof.
  split.
  - intros i c j k oj ok Hjk Hj Hk. cbn [run fold_left step].
    rewrite Hk. rewrite (outstanding_resume _ c j k ok Hjk), Hj. reflexivity.
  - intros h0 d0 d1. cbn [run fold_left].
    assert (E : step (Tick h0) (mounted (widgetOf CpuW) h0)
                = callUpdate (mounted (widgetOf CpuW) h0)).
    { cbn [step]. rewrite mounted_live. reflexivity. }
    rewrite E. reflexivity.
Qed.

Lemma results_apply_in_settle_order_witness :
  (0 <> 1)%nat
  /\ widget (run [Settle 1 (Rejected "HTTP 401"); Settle 0 (Rejected "timeout")]
               (step (Tick 1%Z) (mounted (widgetOf HealthW) 1%Z)))
     = HealthUp.updateHealth (Rejected "timeout")
         (HealthUp.updateHealth (Rejected "HTTP 401") HealthUp.init).
Proof.
  split; [discriminate|].
  apply (proj1 results_apply_in_settle_order HealthW
           (step (Tick 1%Z) (mounted (widgetOf HealthW) 1%Z)) 0%nat 1%nat
           (Rejected "timeout") (Rejected "HTTP 401"));
    [discriminate|reflexivity|reflexivity].
Defined.

(** X11.  Only settled calls change what a widget stores: timer ticks
    and the destruction of the component leave the state alone, and the
    state after any run of events is the state before it updated by
    outcomes that calls settled with during the run, and by nothing
    else. *)
Theorem only_settled_calls_change_the_state :
  forall i (c : Component (widgetOf i)) (es : list (Event (widgetOf i))),
    (Forall (fun e => match e with Settle _ _ => False | _ => True end) es ->
     widget (run es c) = widget c)
    /\ exists os,
         widget (run es c) = settleAll (update (widgetOf i)) os (widget c)
         /\ forall o, In o os -> exists k, In (Settle k o) es.
Proof.
  intros i c es. split.
  - revert c. induction es as [|e es IH]; intros c H; [reflexivity|].
    inversion H as [|? ? He Hes]; subst. rewrite run_cons, (IH _ Hes).
    destruct e as [h|k o|]; [|destruct He|].
    + cbn [step]. destruct (live h c); reflexivity.
    + apply onDestroy_keeps.
  - revert c. induction es as [|e es IH]; intros c.
    + exists []. split; [reflexivity|intros o []].
    + rewrite run_cons. destruct (IH (step e c)) as (os & Hw & Hos).
      destruct e as [h|k o|].
      * exists os. split.
        -- rewrite Hw. cbn [step]. destruct (live h c); reflexivity.
        -- intros o Ho. destruct (Hos o Ho) as [k Hk]. exists k. right. exact Hk.
      * destruct (outstanding k c) eqn:Eo.
        -- assert (Es : step (Settle k o) c = resume k o c)
             by (cbn [step]; rewrite Eo; reflexivity).
           rewrite Es in *. exists (o :: os). split; [exact Hw|].
           intros o' [<-|Ho]; [exists k; left; reflexivity|].
           destruct (Hos o' Ho) as [k' Hk]. exists k'. right. exact Hk.
        -- assert (Es : step (Settle k o) c = c)
             by (cbn [step]; rewrite Eo; reflexivity).
           rewrite Es in *. exists os. split; [exact Hw|].
           intros o' Ho. destruct (Hos o' Ho) as [k' Hk]. exists k'. right. exact Hk.
      * exists os. split.
        -- rewrite Hw. cbn [step].
           destruct (onDestroy_keeps _ c) as (-> & _). reflexivity.
        -- intros o Ho. destruct (Hos o Ho) as [k Hk]. exists k. right. exact Hk.
Qed.

Lemma only_settled_calls_change_the_state_witness :
  widget (run [Tick 1%Z; Destroy; Tick 1%Z] (mounted (widgetOf SentryW) 1%Z))
  = widget (mounted (widgetOf SentryW) 1%Z).
Proof.
  apply (proj1 (only_settled_calls_change_the_state SentryW
                  (mounted (widgetOf SentryW) 1%Z) [Tick 1%Z; Destroy; Tick 1%Z])).
  repeat constructor.
Defined.

(** ** Titles of Sentry issues *)

Lemma append_assoc (a b c : string) : (a ++ b) ++ c = a ++ b ++ c.
Proof. induction a as [|x a IH]; cbn; [|rewrite IH]; reflexivity. Qed.

Lemma append_nil_r (a : string) : a ++ EmptyString = a.
Proof. induction a as [|x a IH]; cbn; [|rewrite IH]; reflexivity. Qed.

Lemma collapse_head (t : string) (d : ascii) (u : string) :
  Js.collapseWhiteSpace true t = String d u -> Js.isWhiteSpace d = false.
Proof.
  induction t as [|c t IH]; cbn; [discriminate|].
  destruct (Js.isWhiteSpace c) eqn:W; [exact IH|].
  intros H. injection H as <- _. exact W.
Qed.

(** In the output of the collapsing pass a white-space character is a
    space, and it is followed by no other white space. *)
Lemma collapse_white (x : string) :
  forall inRun a c rest,
    Js.collapseWhiteSpace inRun x = a ++ String c rest ->
    Js.isWhiteSpace c = true ->
    c = " "%char
    /\ (rest = EmptyString
        \/ exists c' b', rest = String c' b' /\ Js.isWhiteSpace c' = false).
Proof.
  induction x as [|d t IH]; intros inRun a c rest H W.
  - destruct a; discriminate.
  - cbn [Js.collapseWhiteSpace] in H.
    destruct (Js.isWhiteSpace d) eqn:Wd.
    + destruct inRun; [apply (IH _ _ _ _ H W)|].
      destruct a as [|e a']; cbn in H.
      * injection H as <- Hr. split; [reflexivity|].
        destruct rest as [|c' b']; [left; reflexivity|right].
        exists c', b'. split; [reflexivity|]. apply (collapse_head _ _ _ Hr).
      * injection H as _ Hr. apply (IH _ _ _ _ Hr W).
    + destruct a as [|e a']; cbn in H.
      * injection H as <- _. congruence.
      * injection H as _ Hr. apply (IH _ _ _ _ Hr W).
Qed.

Lemma trimStart_suffix (s : string) : exists p, s = p ++ Js.trimStart s.
Proof.
  induction s as [|c s [p IH]]; [exists EmptyString; reflexivity|]. cbn.
  destruct (Js.isWhiteSpace c).
  - exists (String c p). cbn. rewrite <- IH. reflexivity.
  - exists EmptyString. reflexivity.
Qed.

Lemma trimEnd_prefix (s : string) : exists q, s = Js.trimEnd s ++ q.
Proof.
  induction s as [|c s [q IH]]; [exists EmptyString; reflexivity|]. cbn.
  destruct (Js.trimEnd s) as [|d t] eqn:E.
  - destruct (Js.isWhiteSpace c).
    + exists (String c s). reflexivity.
    + exists q. cbn in *. congruence.
  - exists q. cbn in *. congruence.
Qed.

Lemma trimStart_head (s : string) (c : ascii) (t : string) :
  Js.trimStart s = String c t -> Js.isWhiteSpace c = false.
Proof.
  induction s as [|d s IH]; cbn; [discriminate|].
  destruct (Js.isWhiteSpace d) eqn:W; [exact IH|].
  intros H. injection H as <- _. exact W.
Qed.

Lemma trimEnd_last (s : string) :
  forall a c, Js.trimEnd s = a ++ String c EmptyString ->
              Js.isWhiteSpace c = false.
Proof.
  induction s as [|d s IH]; intros a c H; cbn in H.
  - destruct a; discriminate.
  - destruct (Js.trimEnd s) as [|e t] eqn:E.
    + destruct (Js.isWhiteSpace d) eqn:W; [destruct a; discriminate|].
      destruct a as [|x a']; cbn in H.
      * injection H as <-. exact W.
      * injection H as _ H. destruct a'; discriminate.
    + destruct a as [|x a']; cbn in H; [discriminate|].
      injection H as _ H. apply (IH a' c). exact H.
Qed.

(** X12.  A formatted issue title has its white space normalised: it is
    its own trim, and every white-space character in it is a space that
    stands between two characters, the one behind it not white space.
    So the title neither starts nor ends with white space and has no two
    white-space characters in a row. *)
Theorem formatIssueTitle_white_space :
  forall title,
    let r := SentryIssues.formatIssueTitle title in
    Js.trim r = r
    /\ forall a c b,
         r = a ++ String c b -> Js.isWhiteSpace c = true ->
         c = " "%char /\ a <> EmptyString
         /\ exists c' b', b = String c' b' /\ Js.isWhiteSpace c' = false.
Proof.
  intros title r. unfold SentryIssues.formatIssueTitle in r.
  set (y := Js.collapseWhiteSpace false _) in r.
  split; [apply trim_idempotent|].
  intros a c b Hr W.
  destruct (trimStart_suffix y) as [p Hp].
  destruct (trimEnd_prefix (Js.trimStart y)) as [q Hq].
  fold (Js.trim y) in Hq. fold r in Hq.
  assert (Ha : a <> EmptyString).
  { intros ->. cbn in Hr. rewrite Hr in Hq. cbn in Hq.
    apply trimStart_head in Hq. congruence. }
  assert (Hb : b <> EmptyString).
  { intros ->. unfold r, Js.trim in Hr. apply trimEnd_last in Hr. congruence. }
  assert (Hy : y = (p ++ a) ++ String c (b ++ q)).
  { rewrite Hp, Hq, Hr. rewrite !append_assoc. reflexivity. }
  destruct (collapse_white _ _ _ _ _ Hy W) as [Hc Hn].
  split; [exact Hc|]. split; [exact Ha|].
  destruct b as [|c' b']; [contradiction|]. exists c', b'.
  split; [reflexivity|].
  destruct Hn as [Hn|(c'' & b'' & Hn & Wn)]; [discriminate|].
  cbn in Hn. injection Hn as <- _. exact Wn.
Qed.

Lemma formatIssueTitle_white_space_witness :
  SentryIssues.formatIssueTitle "  TypeError:   x is  undefined "
  = "TypeError:" ++ String " " "x is undefined"
  /\ Js.isWhiteSpace " " = true
  /\ exists c' b', "x is undefined" = String c' b' /\ Js.isWhiteSpace c' = false.
Proof.
  split; [reflexivity|]. split; [reflexivity|].
  apply (proj2 (formatIssueTitle_white_space "  TypeError:   x is  undefined ")
           "TypeError:" " "%char "x is undefined"); reflexivity.
Defined.

Lemma identStart_identChar (c : ascii) :
  SentryIssues.isIdentStart c = true -> SentryIssues.isIdentChar c = true.
Proof. unfold SentryIssues.isIdentChar. intros ->. reflexivity. Qed.

Lemma identChar_plain (c : ascii) :
  SentryIssues.isIdentChar c = true ->
  Ascii.eqb c "\" = false /\ Js.isWhiteSpace c = false /\ c <> "/"%char.
Proof.
  destruct c as [[] [] [] [] [] [] [] []]; cbn; intros H;
    try discriminate; repeat split; discriminate.
Qed.

Lemma strip_run (u : string) :
  forall cur v,
    forallb SentryIssues.isIdentChar (list_ascii_of_string u) = true ->
    SentryIssues.stripNamespaces (SentryIssues.InIdent cur) (u ++ v)
    = SentryIssues.stripNamespaces (SentryIssues.InIdent (cur ++ u)) v.
Proof.
  induction u as [|c u IH]; intros cur v H; cbn [append].
  - rewrite append_nil_r. reflexivity.
  - cbn in H. apply andb_true_iff in H. destruct H as [Hc Hu].
    cbn [SentryIssues.stripNamespaces]. rewrite Hc, (IH _ _ Hu), append_assoc.
    reflexivity.
Qed.

(** Behind a qualifier and its backslash the pass is in the state that
    drops the qualifier if an identifier follows. *)
Lemma strip_qualifier (q rest : string) (st : SentryIssues.Scan) :
  (st = SentryIssues.Outside \/ exists pend, st = SentryIssues.BehindSlash pend) ->
  SentryIssues.isIdentifier q = true ->
  SentryIssues.stripNamespaces st (q ++ "\" ++ rest)
  = SentryIssues.stripNamespaces (SentryIssues.BehindSlash (q ++ "\")) rest.
Proof.
  intros Hst Hq. destruct q as [|c u]; [discriminate|].
  cbn in Hq. apply andb_true_iff in Hq. destruct Hq as [Hc Hu].
  assert (E : SentryIssues.stripNamespaces st (String c u ++ "\" ++ rest)
              = SentryIssues.stripNamespaces
                  (SentryIssues.InIdent (String c EmptyString)) (u ++ "\" ++ rest)).
  { destruct Hst as [-> | [pend ->]]; cbn; rewrite Hc; reflexivity. }
  rewrite E, (strip_run _ _ _ Hu). reflexivity.
Qed.

Lemma strip_last (x : string) (st : SentryIssues.Scan) :
  (st = SentryIssues.Outside \/ exists pend, st = SentryIssues.BehindSlash pend) ->
  SentryIssues.isIdentifier x = true ->
  SentryIssues.stripNamespaces st x = x.
Proof.
  intros Hst Hx. destruct x as [|c u]; [discriminate|].
  cbn in Hx. apply andb_true_iff in Hx. destruct Hx as [Hc Hu].
  assert (E : SentryIssues.stripNamespaces st (String c u)
              = SentryIssues.stripNamespaces
                  (SentryIssues.InIdent (String c EmptyString)) (u ++ EmptyString)).
  { rewrite append_nil_r.
    destruct Hst as [-> | [pend ->]]; cbn; rewrite Hc; reflexivity. }
  rewrite E, (strip_run _ _ _ Hu). reflexivity.
Qed.

Lemma strip_qualified_name (quals : list string) (x : string) :
  forallb SentryIssues.isIdentifier quals = true ->
  SentryIssues.isIdentifier x = true ->
  forall st,
    (st = SentryIssues.Outside \/ exists pend, st = SentryIssues.BehindSlash pend) ->
    SentryIssues.stripNamespaces st (String.concat "\" (quals ++ [x])) = x.
Proof.
  intros Hq Hx. induction quals as [|q quals IH]; intros st Hst.
  - apply strip_last; assumption.
  - cbn in Hq. apply andb_true_iff in Hq. destruct Hq as [Hq1 Hq2].
    change ((q :: quals) ++ [x])%list with (q :: (quals ++ [x]))%list.
    cbn [String.concat].
    destruct (quals ++ [x])%list as [|z zs] eqn:E.
    + destruct quals; discriminate.
    + rewrite strip_qualifier by assumption.
      apply IH; [exact Hq2|]. right. eexists. reflexivity.
Qed.

(** Text made of identifier characters and backslashes passes the other
    three stages of [formatIssueTitle] unchanged. *)
Lemma plain_text_untouched (s : string) :
  forallb (fun c => SentryIssues.isIdentChar c || Ascii.eqb c "\")
    (list_ascii_of_string s) = true ->
  Js.removeAll "/var/www/zewotherm/production" s = s
  /\ Js.collapseWhiteSpace false s = s
  /\ Js.trimStart s = s
  /\ Js.trimEnd s = s.
Proof.
  unfold Js.removeAll.
  induction s as [|c s IH]; intros H; [repeat split|].
  cbn in H. apply andb_true_iff in H. destruct H as [Hc Hs].
  destruct (IH Hs) as (H1 & H2 & H3 & H4).
  assert (Hplain : Js.isWhiteSpace c = false /\ c <> "/"%char).
  { apply orb_true_iff in Hc. destruct Hc as [Hc|Hc].
    - apply identChar_plain in Hc. tauto.
    - apply Ascii.eqb_eq in Hc. subst c. split; [reflexivity|discriminate]. }
  destruct Hplain as [W Hne]. repeat split.
  - cbn [Js.removeAllFrom String.prefix].
    destruct (ascii_dec "/" c) as [E|_]; [congruence|]. rewrite H1. reflexivity.
  - cbn [Js.collapseWhiteSpace]. rewrite W, H2. reflexivity.
  - cbn [Js.trimStart]. rewrite W. reflexivity.
  - cbn [Js.trimEnd]. rewrite H4. destruct s; [rewrite W|]; reflexivity.
Qed.

Lemma list_ascii_of_string_app (a b : string) :
  list_ascii_of_string (a ++ b)
  = (list_ascii_of_string a ++ list_ascii_of_string b)%list.
Proof. induction a as [|c a IH]; cbn; [|rewrite IH]; reflexivity. Qed.

Lemma identifier_plain (x : string) :
  SentryIssues.isIdentifier x = true ->
  forallb (fun c => SentryIssues.isIdentChar c || Ascii.eqb c "\")
    (list_ascii_of_string x) = true.
Proof.
  destruct x as [|c u]; [discriminate|]. cbn. intros H.
  apply andb_true_iff in H. destruct H as [Hc Hu].
  rewrite (identStart_identChar _ Hc). cbn.
  rewrite forallb_forall in *. intros d Hd. rewrite (Hu d Hd). reflexivity.
Qed.

Lemma qualified_name_plain (quals : list string) (x : string) :
  forallb SentryIssues.isIdentifier quals = true ->
  SentryIssues.isIdentifier x = true ->
  forallb (fun c => SentryIssues.isIdentChar c || Ascii.eqb c "\")
    (list_ascii_of_string (String.concat "\" (quals ++ [x]))) = true.
Proof.
  intros Hq Hx. induction quals as [|q quals IH].
  - apply identifier_plain, Hx.
  - cbn in Hq. apply andb_true_iff in Hq. destruct Hq as [Hq1 Hq2].
    change ((q :: quals) ++ [x])%list with (q :: (quals ++ [x]))%list.
    cbn [String.concat].
    destruct (quals ++ [x])%list as [|z zs] eqn:E.
    + destruct quals; discriminate.
    + rewrite !list_ascii_of_string_app, !forallb_app.
      rewrite (identifier_plain _ Hq1), (IH Hq2). reflexivity.
Qed.

Lemma removeAll_absent (needle s : string) :
  Js.includes s needle = false -> Js.removeAll needle s = s.
Proof.
  unfold Js.removeAll. induction s as [|c s IH]; [reflexivity|].
  cbn [Js.includes]. intros H. apply orb_false_iff in H. destruct H as [Hp Hi].
  cbn [Js.removeAllFrom]. rewrite Hp, (IH Hi). reflexivity.
Qed.

Lemma strip_without_backslash (s : string) :
  Js.includes s "\" = false ->
  SentryIssues.stripNamespaces SentryIssues.Outside s = s
  /\ forall cur,
       SentryIssues.stripNamespaces (SentryIssues.InIdent cur) s = cur ++ s.
Proof.
  induction s as [|c s IH]; intros H.
  - split; [reflexivity|]. intros cur. cbn. rewrite append_nil_r. reflexivity.
  - cbn [Js.includes] in H. apply orb_false_iff in H. destruct H as [Hp Hi].
    destruct (IH Hi) as [Ho Hr].
    assert (Hc : Ascii.eqb c "\" = false).
    { destruct (Ascii.eqb_spec c "\") as [->|_]; [|reflexivity].
      cbn in Hp. destruct s; discriminate. }
    split.
    + cbn [SentryIssues.stripNamespaces].
      destruct (SentryIssues.isIdentStart c); [apply Hr|rewrite Ho; reflexivity].
    + intros cur. cbn [SentryIssues.stripNamespaces]. rewrite Hc.
      destruct (SentryIssues.isIdentChar c).
      * rewrite Hr, append_assoc. reflexivity.
      * rewrite Ho. reflexivity.
Qed.

Lemma strip_qualified_name_then (quals : list string) (x post : string) :
  forallb SentryIssues.isIdentifier quals = true ->
  SentryIssues.isIdentifier x = true ->
  Js.includes post "\" = false ->
  forall st,
    (st = SentryIssues.Outside \/ exists pend, st = SentryIssues.BehindSlash pend) ->
    SentryIssues.stripNamespaces st (String.concat "\" (quals ++ [x]) ++ post)
    = x ++ post.
Proof.
  intros Hq Hx Hpost. induction quals as [|q quals IH]; intros st Hst.
  - cbn [app String.concat]. destruct x as [|c u]; [discriminate|].
    cbn in Hx. apply andb_true_iff in Hx. destruct Hx as [Hc Hu].
    assert (E : SentryIssues.stripNamespaces st (String c u ++ post)
                = SentryIssues.stripNamespaces
                    (SentryIssues.InIdent (String c EmptyString)) (u ++ post)).
    { destruct Hst as [-> | [pend ->]]; cbn; rewrite Hc; reflexivity. }
    rewrite E, (strip_run _ _ _ Hu).
    apply (proj2 (strip_without_backslash _ Hpost)).
  - cbn in Hq. apply andb_true_iff in Hq. destruct Hq as [Hq1 Hq2].
    change ((q :: quals) ++ [x])%list with (q :: (quals ++ [x]))%list.
    cbn [String.concat].
    destruct (quals ++ [x])%list as [|z zs] eqn:E.
    + destruct quals; discriminate.
    + rewrite !append_assoc. rewrite strip_qualifier by assumption.
      apply IH; [exact Hq2|]. right. eexists. reflexivity.
Qed.

(** Text without backslash that ends outside an identifier is copied,
    and leaves the pass outside an identifier. *)
Lemma strip_copies_prefix (pre rest : string) :
  Js.includes pre "\" = false ->
  SentryIssues.endsOutsideIdentifier pre = true ->
  SentryIssues.stripNamespaces SentryIssues.Outside (pre ++ rest)
  = pre ++ SentryIssues.stripNamespaces SentryIssues.Outside rest
  /\ (pre <> EmptyString ->
      forall cur,
        SentryIssues.stripNamespaces (SentryIssues.InIdent cur) (pre ++ rest)
        = cur ++ pre ++ SentryIssues.stripNamespaces SentryIssues.Outside rest).
Proof.
  induction pre as [|c t IH]; intros Hb He.
  - split; [reflexivity|]. intros H. contradiction.
  - cbn [Js.includes] in Hb. apply orb_false_iff in Hb. destruct Hb as [Hp Hi].
    assert (Hc : Ascii.eqb c "\" = false).
    { destruct (Ascii.eqb_spec c "\") as [->|_]; [|reflexivity].
      cbn in Hp. destruct t; discriminate. }
    destruct t as [|d t'].
    + cbn in He. apply negb_true_iff in He.
      assert (Hs : SentryIssues.isIdentStart c = false).
      { destruct (SentryIssues.isIdentStart c) eqn:E; [|reflexivity].
        apply identStart_identChar in E. congruence. }
      split.
      * cbn. rewrite Hs. reflexivity.
      * intros _ cur. cbn. rewrite He, Hc. reflexivity.
    + assert (He' : SentryIssues.endsOutsideIdentifier (String d t') = true)
        by exact He.
      destruct (IH Hi He') as [H1 H2].
      assert (H2' := H2 ltac:(discriminate)).
      split.
      * change (String c (String d t') ++ rest)
          with (String c (String d t' ++ rest)).
        cbn [SentryIssues.stripNamespaces].
        destruct (SentryIssues.isIdentStart c).
        -- rewrite H2'. reflexivity.
        -- rewrite H1. reflexivity.
      * intros _ cur.
        change (String c (String d t') ++ rest)
          with (String c (String d t' ++ rest)).
        cbn [SentryIssues.stripNamespaces]. rewrite Hc.
        destruct (SentryIssues.isIdentChar c).
        -- rewrite H2', append_assoc. reflexivity.
        -- rewrite H1. reflexivity.
Qed.

(** X13.  A qualified name, identifiers joined by backslashes, is
    formatted to its last identifier alone.  A title of ASCII characters
    that contains neither a backslash nor the deployment path is only
    white-space normalised.  And in a title of ASCII characters without
    the deployment path, a qualified name that stands behind text ending
    outside an identifier, with no other backslash in the title, is
    replaced by its last identifier, the rest being white-space
    normalised. *)
Theorem formatIssueTitle_namespaces :
  (forall quals x,
      forallb SentryIssues.isIdentifier quals = true ->
      SentryIssues.isIdentifier x = true ->
      SentryIssues.formatIssueTitle (String.concat "\" (quals ++ [x])) = x)
  /\ (forall title,
      Js.isAscii title = true ->
      Js.includes title "/var/www/zewotherm/production" = false ->
      Js.includes title "\" = false ->
      SentryIssues.formatIssueTitle title
      = Js.trim (Js.collapseWhiteSpace false title))
  /\ (forall pre quals x post,
      let title := pre ++ String.concat "\" (quals ++ [x]) ++ post in
      Js.isAscii title = true ->
      Js.includes title "/var/www/zewotherm/production" = false ->
      Js.includes pre "\" = false ->
      SentryIssues.endsOutsideIdentifier pre = true ->
      forallb SentryIssues.isIdentifier quals = true ->
      SentryIssues.isIdentifier x = true ->
      Js.includes post "\" = false ->
      SentryIssues.formatIssueTitle title
      = Js.trim (Js.collapseWhiteSpace false (pre ++ x ++ post))).
Proof.
  repeat apply conj.
  - intros quals x Hq Hx. unfold SentryIssues.formatIssueTitle.
    destruct (plain_text_untouched _ (qualified_name_plain _ _ Hq Hx)) as (-> & _).
    rewrite (strip_qualified_name _ _ Hq Hx) by (left; reflexivity).
    destruct (plain_text_untouched _ (identifier_plain _ Hx)) as (_ & -> & H3 & H4).
    unfold Js.trim. rewrite H3, H4. reflexivity.
  - intros title _ Hp Hb. unfold SentryIssues.formatIssueTitle.
    rewrite (removeAll_absent _ _ Hp).
    destruct (strip_without_backslash _ Hb) as [-> _]. reflexivity.
  - intros pre quals x post title _ Hp Hpre He Hq Hx Hpost.
    unfold SentryIssues.formatIssueTitle.
    rewrite (removeAll_absent _ _ Hp). unfold title.
    rewrite (proj1 (strip_copies_prefix pre _ Hpre He)).
    rewrite (strip_qualified_name_then _ _ _ Hq Hx Hpost) by (left; reflexivity).
    reflexivity.
Qed.

Lemma formatIssueTitle_namespaces_witness :
  SentryIssues.formatIssueTitle (String.concat "\" (["App"; "Http"; "Controllers"]
                                                     ++ ["OrderController"]))
  = "OrderController"
  /\ SentryIssues.formatIssueTitle "TypeError:  x is undefined "
     = Js.trim (Js.collapseWhiteSpace false "TypeError:  x is undefined ")
  /\ SentryIssues.formatIssueTitle
       ("Call to " ++ String.concat "\" (["App"; "Models"] ++ ["User"])
                   ++ "::find()  failed ")
     = "Call to User::find() failed".
Proof.
  destruct formatIssueTitle_namespaces as (Hq & Hp & Hin). split.
  - apply Hq; reflexivity.
  - split; [apply Hp; reflexivity|].
    apply (Hin "Call to " ["App"; "Models"] "User" "::find()  failed ");
      reflexivity.
Defined.

(** ** How many calls a component issues *)

Lemma calls_while_mounted (w : Widget) (h0 : Z) (es : list (Event w)) :
  forall c : Component w,
    timers c = [(h0, intervalMs w)] ->
    Forall (fun e => e <> Destroy) es ->
    timers (run es c) = [(h0, intervalMs w)]
    /\ calls (run es c)
       = (calls c
          + length (filter (fun e => match e with
                                     | Tick h => (h =? h0)%Z
                                     | _ => false
                                     end) es))%nat.
Proof.
  induction es as [|e es IH]; intros c Ht Hes.
  - cbn. split; [exact Ht|lia].
  - inversion Hes as [|? ? He Hes']; subst. rewrite run_cons.
    destruct e as [h|k o|]; [| |contradiction].
    + cbn [step filter]. unfold live. rewrite Ht. cbn [existsb fst orb].
      rewrite Z.eqb_sym, orb_false_r.
      destruct (h =? h0)%Z.
      * destruct (IH (callUpdate c) Ht Hes') as [H1 H2].
        split; [exact H1|]. rewrite H2. cbn [callUpdate calls length]. lia.
      * apply (IH c Ht Hes').
    + cbn [step filter].
      destruct (outstanding k c); [|apply (IH c Ht Hes')].
      destruct (IH (resume k o c) Ht Hes') as [H1 H2].
      split; [exact H1|exact H2].
Qed.

(** X14.  A component whose timer handle is greater than zero issues one
    adapter call when it is mounted, one more for every tick of its own
    timer until it is destroyed, and none after that.  Ticks of other
    handles, settling calls and the events behind the destruction do not
    count. *)
Theorem calls_issued_by_polling :
  forall i h0 (es1 es2 : list (Event (widgetOf i))),
    (0 < h0)%Z ->
    Forall (fun e => e <> Destroy) es1 ->
    calls (run (es1 ++ Destroy :: es2) (mounted (widgetOf i) h0))
    = S (length (filter (fun e => match e with
                                  | Tick h => (h =? h0)%Z
                                  | _ => false
                                  end) es1)).
Proof.
  intros i h0 es1 es2 Hpos Hes.
  rewrite run_app, run_cons.
  destruct (calls_while_mounted (widgetOf i) h0 es1 (mounted (widgetOf i) h0))
    as [_ Hc]; [reflexivity|exact Hes|].
  assert (Hs : stopped h0 (step Destroy (run es1 (mounted (widgetOf i) h0)))).
  { apply destroy_stops; [exact Hpos|].
    apply run_wellMounted, mounted_wellMounted. }
  destruct (run_stopped _ h0 es2 _ Hs) as [_ ->].
  cbn [step]. destruct (onDestroy_keeps _ (run es1 (mounted (widgetOf i) h0)))
    as (_ & _ & -> & _).
  rewrite Hc. reflexivity.
Qed.

Lemma calls_issued_by_polling_witness :
  (0 < 4)%Z
  /\ calls (run ([Tick 4%Z; Tick 9%Z; Settle 0 (Rejected "HTTP 502"); Tick 4%Z]
                  ++ Destroy :: [Tick 4%Z; Tick 4%Z])
              (mounted (widgetOf HealthW) 4%Z))
     = 3%nat.
Proof.
  split; [reflexivity|].
  apply (calls_issued_by_polling HealthW 4%Z
           [Tick 4%Z; Tick 9%Z; Settle 0 (Rejected "HTTP 502"); Tick 4%Z]
           [Tick 4%Z; Tick 4%Z]); [reflexivity|].
  repeat constructor; discriminate.
Defined.

(** ** Latency colours *)

(** X15.  The latency colour of a service is monotone: a measured
    latency is never gray; if a latency is green so is every smaller one,
    and if a latency is red so is every larger one; green ends below
    200 ms and red starts at 500 ms. *)
Theorem latency_class_monotone :
  forall a b,
    (a <= b)%Z ->
    HealthUp.getLatencyClass (Some a) <> HealthUp.getLatencyClass None
    /\ (HealthUp.getLatencyClass (Some b) = "text-green-600" ->
        HealthUp.getLatencyClass (Some a) = "text-green-600")
    /\ (HealthUp.getLatencyClass (Some a) = "text-red-600" ->
        HealthUp.getLatencyClass (Some b) = "text-red-600")
    /\ (HealthUp.getLatencyClass (Some a) = "text-green-600" <-> (a < 200)%Z)
    /\ (HealthUp.getLatencyClass (Some a) = "text-red-600" <-> (500 <= a)%Z).
Proof.
  intros a b Hab. unfold HealthUp.getLatencyClass.
  destruct (Z.ltb_spec a 200), (Z.ltb_spec a 500),
           (Z.ltb_spec b 200), (Z.ltb_spec b 500);
    repeat split; intros; try lia; try discriminate; try reflexivity.
Qed.

Lemma latency_class_monotone_witness :
  (120 <= 199)%Z
  /\ HealthUp.getLatencyClass (Some 120%Z) = "text-green-600".
Proof.
  split; [lia|].
  apply (latency_class_monotone 120%Z 199%Z); [lia|reflexivity].
Defined.
